(** * Intelligent CV Maker: the [CVMaker] component of [CV.jsx]

    A shallow embedding of the React component
    [src/frontend/Cv-Maker/src/CV.jsx] and the proofs of its specified
    properties.

    - The component's hooks ([useState]) become the record [State].
    - [formData] is a JavaScript object indexed by computed keys
      ([[name]: value]); it is a finite map from property names to strings.
    - [languages] is a JavaScript object whose enumeration order decides the
      outcome of a stable sort; it is the list of its own properties in
      enumeration order.  Weights are integers (usage counts).
    - The [async] functions are written in a small process monad [Proc] whose
      nodes are the state setters, the two [fetch] calls and [throw]; an
      attempt is run either on its own ([run]) or interleaved with other
      events of the event loop ([step]). *)

From stdpp Require Import gmap strings list fin_maps sorting.
From Stdlib Require Import ZArith Lia.

Local Open Scope string_scope.
Local Open Scope list_scope.
Local Open Scope Z_scope.

(** ** JavaScript values used by the component *)

(** Truthiness of a property read that yields a string or [undefined]:
    [undefined] and the empty string are falsy. *)
Definition truthy (v : option string) : bool :=
  match v with
  | None => false
  | Some s => negb (String.eqb s "")
  end.

(** [a || b] on such values. *)
Definition js_or (a : option string) (b : string) : string :=
  match a with
  | Some s => if truthy a then s else b
  | None => b
  end.

(** [Array.prototype.join]. *)
Fixpoint join (sep : string) (l : list string) : string :=
  match l with
  | [] => ""
  | [x] => x
  | x :: l' => x +:+ sep +:+ join sep l'
  end.

(** ** [Array.prototype.sort]

    ECMAScript (2019 and later) requires [sort] to be stable; for a
    consistent comparator the result is then fully determined.  It is
    embedded as a stable insertion sort: [x] goes in front of the first
    [y] with [cmp x y <= 0]. *)
Section Array_sort.
Context {A : Type} (cmp : A → A → Z).

Fixpoint sort_insert (x : A) (l : list A) : list A :=
  match l with
  | [] => [x]
  | y :: l' => if (cmp x y <=? 0) then x :: y :: l' else y :: sort_insert x l'
  end.

Definition Array_sort (l : list A) : list A := foldr sort_insert [] l.

(** The order the comparator asks for: [x] may stay in front of [y]. *)
Definition before (x y : A) : Prop := cmp x y ≤ 0.

(** [arr.slice(0, n)]. *)
Definition slice0 (n : nat) (l : list A) : list A := take n l.
End Array_sort.

(** ** The data model *)

(** [user_data] of the lookup response. *)
Record UserData := {
  public_repos : Z;
  followers : Z;
  user_created_at : string;
}.

(** One element of [top_repos]. *)
Record ProjectEntry := {
  project_name : string;
  created_at : string;
  updated_at : string;
  language : option string;
  enhanced_description : string;
  homepage : option string;
  html_url : string;
}.

(** The [languages] object: its own properties in enumeration order. *)
Definition LanguageFrequency : Type := list (string * Z).

(** [Object.entries]. *)
Definition Object_entries (o : LanguageFrequency) : list (string * Z) := o.

(** [o[name]]. *)
Fixpoint weight_of (o : LanguageFrequency) (name : string) : option Z :=
  match o with
  | [] => None
  | (k, w) :: o' => if String.eqb k name then Some w else weight_of o' name
  end.

(** The body of a successful lookup: [{ user_data, top_repos, languages }]. *)
Record ProfileData := {
  user_data : UserData;
  top_repos : list ProjectEntry;
  languages_of : LanguageFrequency;
}.

(** The hooks of [CVMaker] (lines 5-25). *)
Record State := {
  formData : gmap string string;
  githubData : option UserData;
  topProjects : list ProjectEntry;
  languages : LanguageFrequency;
  isLoading : bool;
  error : string;
  showCV : bool;
}.

Definition form_fields : list string :=
  ["name"; "email"; "phone"; "education"; "university"; "graduation";
   "description"; "githubUsername"; "skills"].

Definition initialFormData : gmap string string :=
  list_to_map ((λ k, (k, "")) <$> form_fields).

Definition initialState : State := {|
  formData := initialFormData;
  githubData := None;
  topProjects := [];
  languages := [];
  isLoading := false;
  error := "";
  showCV := false;
|}.

(** The setters returned by [useState]. *)
Definition setFormData (v : gmap string string) (s : State) : State :=
  {| formData := v; githubData := githubData s; topProjects := topProjects s;
     languages := languages s; isLoading := isLoading s; error := error s;
     showCV := showCV s |}.
Definition setGithubData (v : option UserData) (s : State) : State :=
  {| formData := formData s; githubData := v; topProjects := topProjects s;
     languages := languages s; isLoading := isLoading s; error := error s;
     showCV := showCV s |}.
Definition setTopProjects (v : list ProjectEntry) (s : State) : State :=
  {| formData := formData s; githubData := githubData s; topProjects := v;
     languages := languages s; isLoading := isLoading s; error := error s;
     showCV := showCV s |}.
Definition setLanguages (v : LanguageFrequency) (s : State) : State :=
  {| formData := formData s; githubData := githubData s;
     topProjects := topProjects s; languages := v; isLoading := isLoading s;
     error := error s; showCV := showCV s |}.
Definition setIsLoading (v : bool) (s : State) : State :=
  {| formData := formData s; githubData := githubData s;
     topProjects := topProjects s; languages := languages s; isLoading := v;
     error := error s; showCV := showCV s |}.
Definition setError (v : string) (s : State) : State :=
  {| formData := formData s; githubData := githubData s;
     topProjects := topProjects s; languages := languages s;
     isLoading := isLoading s; error := v; showCV := showCV s |}.
Definition setShowCV (v : bool) (s : State) : State :=
  {| formData := formData s; githubData := githubData s;
     topProjects := topProjects s; languages := languages s;
     isLoading := isLoading s; error := error s; showCV := v |}.

(** ** [handleChange] (lines 31-37) *)

(** [e.target]: the input's [name] and [value]. *)
Record ChangeEvent := { target_name : string; target_value : string }.

Definition handleChange (e : ChangeEvent) (s : State) : State :=
  setFormData (<[target_name e := target_value e]> (formData s)) s.

(** ** [getTopLanguages] (lines 115-120) *)

(** [(a, b) => b[1] - a[1]]. *)
Definition compareFn (a b : string * Z) : Z := b.2 - a.2.

Definition getTopLanguages (languages : LanguageFrequency) : list string :=
  (slice0 5 (Array_sort compareFn (Object_entries languages))).*1.

(** Descending weight. *)
Definition descending (a b : string * Z) : Prop := b.2 ≤ a.2.

(** The mapping of the specification's example. *)
Definition example_languages : LanguageFrequency :=
  [("Python", 10); ("JS", 30); ("Go", 5); ("Rust", 30); ("C", 1); ("Java", 2)].

(** ** The network *)

(** [JSON.stringify({ personalInfo, githubData })], the body of the
    generation request. *)
Record Payload := {
  personalInfo : gmap string string;
  payload_githubData : ProfileData;
}.

(** The body of a failure response: [{ error: string }], the property
    possibly absent. *)
Record ErrorBody := { error_field : option string }.

(** What [await response.json()] gives: a rejection (the body is not JSON)
    with the exception's message, or the parsed body. *)
Inductive JsonResult (B : Type) : Type :=
| JsonReject (message : string)
| JsonOk (body : B).
Arguments JsonReject {B} message.
Arguments JsonOk {B} body.

(** A response: [response.ok] is false ([NotOk]) or true ([Ok]); the bodies
    are typed by the interface of each endpoint. *)
Inductive HttpResponse (B : Type) : Type :=
| NotOk (body : JsonResult ErrorBody)
| Ok (body : JsonResult B).
Arguments NotOk {B} body.
Arguments Ok {B} body.

(** What [await fetch(...)] gives: a rejection (network failure) with the
    exception's message, or a response. *)
Inductive FetchResult (B : Type) : Type :=
| NetworkFailure (message : string)
| Responded (response : HttpResponse B).
Arguments NetworkFailure {B} message.
Arguments Responded {B} response.

(** ** Processes: the bodies of the [async] functions *)

Inductive Proc (A : Type) : Type :=
| Ret (a : A)                      (* return *)
| Throw (message : string)          (* throw new Error(message) *)
| Set_ (f : State → State) (k : Proc A)   (* a setter call, then k *)
| FetchProfile (username : string) (k : FetchResult ProfileData → Proc A)
| FetchGenerate (body : Payload) (k : FetchResult unit → Proc A).
Arguments Ret {A} a.
Arguments Throw {A} message.
Arguments Set_ {A} f k.
Arguments FetchProfile {A} username k.
Arguments FetchGenerate {A} body k.

Fixpoint Proc_bind {A B : Type} (f : A → Proc B) (p : Proc A) : Proc B :=
  match p with
  | Ret a => f a
  | Throw m => Throw m
  | Set_ g k => Set_ g (Proc_bind f k)
  | FetchProfile u k => FetchProfile u (λ r, Proc_bind f (k r))
  | FetchGenerate b k => FetchGenerate b (λ r, Proc_bind f (k r))
  end.

#[global] Instance Proc_mret : MRet Proc := λ A a, Ret a.
#[global] Instance Proc_mbind : MBind Proc := λ A B f p, Proc_bind f p.

(** [try { p } catch (err) { h err.message }]. *)
Fixpoint try_catch {A : Type} (p : Proc A) (h : string → Proc A) : Proc A :=
  match p with
  | Ret a => Ret a
  | Throw m => h m
  | Set_ g k => Set_ g (try_catch k h)
  | FetchProfile u k => FetchProfile u (λ r, try_catch (k r) h)
  | FetchGenerate b k => FetchGenerate b (λ r, try_catch (k r) h)
  end.

(** [try { p } finally { f }], for an [f] that completes normally. *)
Fixpoint try_finally {A : Type} (p : Proc A) (f : Proc unit) : Proc A :=
  match p with
  | Ret a => Proc_bind (λ _, Ret a) f
  | Throw m => Proc_bind (λ _, Throw m) f
  | Set_ g k => Set_ g (try_finally k f)
  | FetchProfile u k => FetchProfile u (λ r, try_finally (k r) f)
  | FetchGenerate b k => FetchGenerate b (λ r, try_finally (k r) f)
  end.

(** A statement that calls a setter. *)
Definition call (f : State → State) : Proc unit := Set_ f (Ret ()).

(** [await fetch(url)]: the rejection is thrown. *)
Definition await_fetch_profile (username : string)
  : Proc (HttpResponse ProfileData) :=
  FetchProfile username (λ r,
    match r with
    | NetworkFailure m => Throw m
    | Responded resp => Ret resp
    end).

Definition await_fetch_generate (body : Payload) : Proc (HttpResponse unit) :=
  FetchGenerate body (λ r,
    match r with
    | NetworkFailure m => Throw m
    | Responded resp => Ret resp
    end).

(** [await response.json()]. *)
Definition await_json {B : Type} (body : JsonResult B) : Proc B :=
  match body with
  | JsonReject m => Throw m
  | JsonOk b => Ret b
  end.

(** A property read inside a template literal. *)
Definition template (v : option string) : string := default "undefined" v.

(** ** [fetchGitHubData] (lines 40-72)

    [formData] is the constant of the render in which the handler was
    created.  The result is [None] for the falsy results ([undefined],
    [null]) and [Some data] for [data]. *)
Definition fetchGitHubData (formData : gmap string string)
  : Proc (option ProfileData) :=
  if negb (truthy (formData !! "githubUsername")) then
    call (setError "Please enter a GitHub username") ;;
    Ret None
  else
    call (setIsLoading true) ;;
    call (setError "") ;;
    try_finally
      (try_catch
         (response ← await_fetch_profile (template (formData !! "githubUsername"));
          match response with
          | NotOk body =>
              errorData ← await_json body;
              Throw (js_or (error_field errorData) "Failed to fetch GitHub data")
          | Ok body =>
              data ← await_json body;
              call (setGithubData (Some (user_data data))) ;;
              call (setTopProjects (top_repos data)) ;;
              call (setLanguages (languages_of data)) ;;
              Ret (Some data)
          end)
         (λ message, call (setError message) ;; Ret None))
      (call (setIsLoading false)).

(** ** [generateCV] (lines 75-112) *)
Definition generateCV (formData : gmap string string) : Proc unit :=
  if negb (truthy (formData !! "name")) || negb (truthy (formData !! "email"))
     || negb (truthy (formData !! "education"))
     || negb (truthy (formData !! "university")) then
    call (setError "Please fill in all required fields")
  else
    githubResult ← fetchGitHubData formData;
    match githubResult with
    | None => Ret ()
    | Some data =>
        try_catch
          (response ← await_fetch_generate
             {| personalInfo := formData; payload_githubData := data |};
           match response with
           | NotOk body =>
               errorData ← await_json body;
               Throw (js_or (error_field errorData) "Failed to generate CV")
           | Ok _ => call (setShowCV true)
           end)
          (λ message, call (setError message))
    end.

(** ** Running the processes *)

(** What the component does on the network, in order. *)
Inductive Event : Type :=
| IssueProfile (username : string)
| SettleProfile (result : FetchResult ProfileData)
| IssueGenerate (body : Payload)
| SettleGenerate (result : FetchResult unit).

(** The answers of the network to one attempt. *)
Record Network := {
  profile_result : FetchResult ProfileData;
  generate_result : FetchResult unit;
}.

(** How an [async] function ends. *)
Inductive Completion (A : Type) : Type :=
| Returned (a : A)
| Rejected (message : string).
Arguments Returned {A} a.
Arguments Rejected {A} message.

(** One attempt run on its own, from its call to its end, with no other
    event of the page in between: the final state, the network events in
    order, and how it ended. *)
Fixpoint run {A : Type} (net : Network) (p : Proc A) (s : State)
  : State * list Event * Completion A :=
  match p with
  | Ret a => (s, [], Returned a)
  | Throw m => (s, [], Rejected m)
  | Set_ f k => run net k (f s)
  | FetchProfile u k =>
      let '(s', tr, c) := run net (k (profile_result net)) s in
      (s', IssueProfile u :: SettleProfile (profile_result net) :: tr, c)
  | FetchGenerate b k =>
      let '(s', tr, c) := run net (k (generate_result net)) s in
      (s', IssueGenerate b :: SettleGenerate (generate_result net) :: tr, c)
  end.

Definition final_state {A : Type} (r : State * list Event * Completion A)
  : State := r.1.1.
Definition trace {A : Type} (r : State * list Event * Completion A)
  : list Event := r.1.2.

(** The generation requests of a trace. *)
Definition is_generate_request (e : Event) : bool :=
  match e with
  | IssueGenerate _ => true
  | _ => false
  end.

(** ** The event loop

    A suspended [async] call waits for the network with its continuation. *)
Inductive Waiting : Type :=
| WaitProfile (k : FetchResult ProfileData → Proc unit)
| WaitGenerate (k : FetchResult unit → Proc unit).

(** Run a process until it suspends or ends. *)
Fixpoint advance (p : Proc unit) (s : State)
  : State * list Event * option Waiting :=
  match p with
  | Ret _ => (s, [], None)
  | Throw _ => (s, [], None)
  | Set_ f k => advance k (f s)
  | FetchProfile u k => (s, [IssueProfile u], Some (WaitProfile k))
  | FetchGenerate b k => (s, [IssueGenerate b], Some (WaitGenerate k))
  end.

Record Config := {
  ui : State;
  pending : list Waiting;
  history : list Event;
}.

Definition initialConfig : Config :=
  {| ui := initialState; pending := []; history := [] |}.

(** The configuration after a process has been advanced from [c], with
    [pre] the events that woke it and [rest] the other suspended calls. *)
Definition resume (c : Config) (rest : list Waiting) (pre : list Event)
  (p : Proc unit) : Config :=
  let '(s', evs, w) := advance p (ui c) in
  {| ui := s';
     pending := rest ++ option_list w;
     history := history c ++ pre ++ evs |}.

(** What each event of the page does to a configuration. *)
Definition on_change (e : ChangeEvent) (c : Config) : Config :=
  {| ui := handleChange e (ui c);
     pending := pending c; history := history c |}.

Definition on_generate (c : Config) : Config :=
  resume c (pending c) [] (generateCV (formData (ui c))).

Definition on_back (c : Config) : Config :=
  {| ui := setShowCV false (ui c);
     pending := pending c; history := history c |}.

Definition on_settle_profile (i : nat)
  (k : FetchResult ProfileData → Proc unit) (r : FetchResult ProfileData)
  (c : Config) : Config :=
  resume c (delete i (pending c)) [SettleProfile r] (k r).

Definition on_settle_generate (i : nat)
  (k : FetchResult unit → Proc unit) (r : FetchResult unit)
  (c : Config) : Config :=
  resume c (delete i (pending c)) [SettleGenerate r] (k r).

(** The steps of the page.  The form (inputs and the Generate button) is
    rendered only while [showCV] is false, the Back button only while it is
    true (line 126); a pending request can settle at any time, with any
    result. *)
Inductive step : Config → Config → Prop :=
| step_change c e :
    showCV (ui c) = false →
    target_name e ∈ form_fields →
    step c (on_change e c)
| step_generate c :
    showCV (ui c) = false →
    step c (on_generate c)
| step_back c :
    showCV (ui c) = true →
    step c (on_back c)
| step_settle_profile c i k r :
    pending c !! i = Some (WaitProfile k) →
    step c (on_settle_profile i k r c)
| step_settle_generate c i k r :
    pending c !! i = Some (WaitGenerate k) →
    step c (on_settle_generate i k r c).

Inductive reachable : Config → Prop :=
| reachable_init : reachable initialConfig
| reachable_step c c' : reachable c → step c c' → reachable c'.

(** The data of the latest successful lookup of a history. *)
Definition lookup_success (e : Event) : option ProfileData :=
  match e with
  | SettleProfile (Responded (Ok (JsonOk data))) => Some data
  | _ => None
  end.

Fixpoint last_fetched (h : list Event) : option ProfileData :=
  match h with
  | [] => None
  | e :: h' =>
      match last_fetched h' with
      | Some d => Some d
      | None => lookup_success e
      end
  end.

(** ** The rendered page (lines 122-338) *)

(** The parts of the document of the preview. *)
Record Document := {
  doc_heading : string;               (* <h1>{formData.name}</h1> *)
  doc_contact : list string;          (* email • phone • GitHub: username *)
  doc_summary : string;
  doc_university : string;
  doc_education : string;
  doc_graduation : string;
  doc_languages : string;             (* getTopLanguages().join(', ') *)
  doc_skills : option string;
  doc_projects : list ProjectEntry;
  doc_stats : option UserData;
}.

Inductive View : Type :=
| FormView (fields : gmap string string) (loading : bool)
    (message : option string)
| PreviewView (doc : Document).

(** A string child of an element: [undefined] renders as nothing. *)
Definition text (v : option string) : string := default "" v.

Definition render (s : State) : View :=
  if negb (showCV s) then
    FormView (formData s) (isLoading s)
      (if truthy (Some (error s)) then Some (error s) else None)
  else
    PreviewView {|
      doc_heading := text (formData s !! "name");
      doc_contact :=
        [text (formData s !! "email"); " • "; text (formData s !! "phone");
         " • GitHub: "; text (formData s !! "githubUsername")];
      doc_summary := text (formData s !! "description");
      doc_university := text (formData s !! "university");
      doc_education := text (formData s !! "education");
      doc_graduation := text (formData s !! "graduation");
      doc_languages := join ", " (getTopLanguages (languages s));
      doc_skills :=
        if truthy (formData s !! "skills") then formData s !! "skills"
        else None;
      doc_projects := topProjects s;
      doc_stats := githubData s;
    |}.


(** ** Vocabulary of the statements *)

(** The fields [generateCV] requires (line 77). *)
Definition required_fields : list string :=
  ["name"; "email"; "education"; "university"].

(** The form passes the checks of lines 77 and 41. *)
Definition form_complete (fd : gmap string string) : bool :=
  forallb (λ n, truthy (fd !! n)) required_fields
  && truthy (fd !! "githubUsername").

(** The message a failed lookup carries, [None] for a successful one. *)
Definition lookup_failure (r : FetchResult ProfileData) : option string :=
  match r with
  | NetworkFailure m => Some m
  | Responded (NotOk (JsonReject m)) => Some m
  | Responded (NotOk (JsonOk b)) =>
      Some (js_or (error_field b) "Failed to fetch GitHub data")
  | Responded (Ok (JsonReject m)) => Some m
  | Responded (Ok (JsonOk _)) => None
  end.

(** The message a failed generation call carries, [None] for a successful
    one (the body of a success is not read). *)
Definition generate_failure (r : FetchResult unit) : option string :=
  match r with
  | NetworkFailure m => Some m
  | Responded (NotOk (JsonReject m)) => Some m
  | Responded (NotOk (JsonOk b)) =>
      Some (js_or (error_field b) "Failed to generate CV")
  | Responded (Ok _) => None
  end.



(** Every hook but [error] has the value it had. *)
Definition unchanged_but_error (s s' : State) : Prop :=
  formData s' = formData s ∧ githubData s' = githubData s ∧
  topProjects s' = topProjects s ∧ languages s' = languages s ∧
  isLoading s' = isLoading s ∧ showCV s' = showCV s.

(** The fetched hooks hold the data of a lookup. *)
Definition holds_fetched (s : State) (data : ProfileData) : Prop :=
  githubData s = Some (user_data data) ∧
  topProjects s = top_repos data ∧
  languages s = languages_of data.

(** ** Concrete inputs *)

Definition example_form : gmap string string :=
  <["name" := "Ada"]> (<["email" := "ada@example.org"]>
  (<["education" := "BSc"]> (<["university" := "MIT"]>
  (<["githubUsername" := "ada"]> initialFormData)))).

Definition example_state : State := setFormData example_form initialState.

Definition example_profile : ProfileData := {|
  user_data :=
    {| public_repos := 3; followers := 7; user_created_at := "2020-01-01" |};
  top_repos := [];
  languages_of := example_languages;
|}.


(** The lookup is answered with a failure response and the server's text. *)
Definition lookup_refused : Network := {|
  profile_result :=
    Responded (NotOk (JsonOk {| error_field := Some "User not found" |}));
  generate_result := Responded (Ok (JsonOk ()));
|}.

(** The lookup succeeds, the generation call answers with an error. *)
Definition generation_refused : Network := {|
  profile_result := Responded (Ok (JsonOk example_profile));
  generate_result :=
    Responded (NotOk (JsonOk {| error_field := Some "No data provided" |}));
|}.

(** Both calls succeed. *)
Definition network_up : Network := {|
  profile_result := Responded (Ok (JsonOk example_profile));
  generate_result := Responded (Ok (JsonOk ()));
|}.

(** ** Invariants of the event loop *)

(** The fetched hooks have the values they had. *)
Definition keeps_fetched (s s' : State) : Prop :=
  githubData s' = githubData s ∧ topProjects s' = topProjects s ∧
  languages s' = languages s.

(** A continuation waiting for the generation call: it ends at once and
    does not touch the fetched hooks. *)
Definition generate_cont_ok (k : FetchResult unit → Proc unit) : Prop :=
  ∀ r s, ∃ s', advance (k r) s = (s', [], None) ∧ keeps_fetched s s'.

(** A continuation waiting for the lookup: on success it stores the data
    and issues the generation request with that data, otherwise it ends
    without touching the fetched hooks; [showCV] is left alone. *)
Definition lookup_cont_ok (k : FetchResult ProfileData → Proc unit) : Prop :=
  ∀ r s,
    match lookup_success (SettleProfile r) with
    | Some data =>
        ∃ s' b k',
          advance (k r) s = (s', [IssueGenerate b], Some (WaitGenerate k')) ∧
          generate_cont_ok k' ∧ holds_fetched s' data ∧
          showCV s' = showCV s ∧ payload_githubData b = data
    | None =>
        ∃ s', advance (k r) s = (s', [], None) ∧
              keeps_fetched s s' ∧ showCV s' = showCV s
    end.

Definition waiting_ok (h : list Event) (w : Waiting) : Prop :=
  match w with
  | WaitProfile k => lookup_cont_ok k
  | WaitGenerate k => generate_cont_ok k ∧ is_Some (last_fetched h)
  end.

(** Every generation request of a history comes after the successful
    settlement of a lookup that returned the data it carries. *)
Definition generate_after_lookup (h : list Event) : Prop :=
  ∀ (i : nat) (b : Payload),
    h !! i = Some (IssueGenerate b) →
    ∃ j : nat,
      (j < i)%nat ∧
      h !! j = Some (SettleProfile (Responded (Ok (JsonOk (payload_githubData b))))).

Definition invariant (c : Config) : Prop :=
  (∀ data, last_fetched (history c) = Some data → holds_fetched (ui c) data) ∧
  (showCV (ui c) = true → is_Some (last_fetched (history c))) ∧
  Forall (waiting_ok (history c)) (pending c) ∧
  generate_after_lookup (history c).

(** ** A run of the page to the preview *)

(** The user fills the form in. *)
Definition filled_config : Config :=
  on_change {| target_name := "name"; target_value := "Ada" |}
    (on_change {| target_name := "email"; target_value := "ada@example.org" |}
       (on_change {| target_name := "education"; target_value := "BSc" |}
          (on_change {| target_name := "university"; target_value := "MIT" |}
             (on_change
                {| target_name := "githubUsername"; target_value := "ada" |}
                initialConfig)))).

(** The oldest pending request settles. *)
Definition settle_first (rp : FetchResult ProfileData) (rg : FetchResult unit)
  (c : Config) : Config :=
  match pending c with
  | WaitProfile k :: _ => on_settle_profile 0 k rp c
  | WaitGenerate k :: _ => on_settle_generate 0 k rg c
  | [] => c
  end.

(** Generate is clicked, the lookup succeeds, the generation call
    succeeds. *)
Definition preview_config : Config :=
  settle_first (profile_result network_up) (generate_result network_up)
    (settle_first (profile_result network_up) (generate_result network_up)
       (on_generate filled_config)).

(** ** Further vocabulary *)

(** In the mapping [o], the name [a] has a weight and [b] has one that is
    not larger. *)
Definition outweighs (o : LanguageFrequency) (a b : string) : Prop :=
  ∃ wa wb : Z, weight_of o a = Some wa ∧ weight_of o b = Some wb ∧ wb ≤ wa.

(** The writes of a successful lookup (lines 61-63 and 70). *)
Definition store_fetched (data : ProfileData) (s : State) : State :=
  setIsLoading false
    (setLanguages (languages_of data)
       (setTopProjects (top_repos data)
          (setGithubData (Some (user_data data)) s))).

(** The names of the nine inputs, as a set. *)
Definition form_keys : gset string := list_to_set form_fields.

(** A lookup carries a username that is not empty, a generation request a
    form that passed the checks. *)
Definition request_validated (e : Event) : Prop :=
  match e with
  | IssueProfile u => u ≠ ""
  | IssueGenerate b => form_complete (personalInfo b) = true
  | _ => True
  end.

(** What a continuation waiting for the generation call does, exactly. *)
Definition generate_cont_exact (k : FetchResult unit → Proc unit) : Prop :=
  ∀ r s,
    advance (k r) s
      = (match generate_failure r with
         | Some m => setError m s
         | None => setShowCV true s
         end, [], None).

(** What a continuation waiting for the lookup of the form [fd] does,
    exactly. *)
Definition lookup_cont_exact (fd : gmap string string)
  (k : FetchResult ProfileData → Proc unit) : Prop :=
  ∀ r s,
    match lookup_failure r with
    | Some m => advance (k r) s = (setIsLoading false (setError m s), [], None)
    | None =>
        ∃ data k',
          r = Responded (Ok (JsonOk data)) ∧
          advance (k r) s
            = (store_fetched data s,
               [IssueGenerate
                  {| personalInfo := fd; payload_githubData := data |}],
               Some (WaitGenerate k')) ∧
          generate_cont_exact k'
    end.

Definition waiting_exact (w : Waiting) : Prop :=
  match w with
  | WaitProfile k => ∃ fd, form_complete fd = true ∧ lookup_cont_exact fd k
  | WaitGenerate k => generate_cont_exact k
  end.

Definition is_lookup_wait (w : Waiting) : bool :=
  match w with
  | WaitProfile _ => true
  | WaitGenerate _ => false
  end.

Definition loop_invariant (c : Config) : Prop :=
  Forall waiting_exact (pending c) ∧
  dom (formData (ui c)) = form_keys ∧
  Forall request_validated (history c) ∧
  (isLoading (ui c) = true → Exists (λ w, is_lookup_wait w = true) (pending c)).

(** A mapping with more than five languages and all weights different, and
    the same properties enumerated in another order. *)
Definition distinct_languages : LanguageFrequency :=
  [("Python", 10); ("JS", 30); ("Go", 5); ("Rust", 31); ("C", 1); ("Java", 2)].

Definition reordered_languages : LanguageFrequency :=
  [("C", 1); ("Rust", 31); ("Java", 2); ("Python", 10); ("Go", 5); ("JS", 30)].

(** A mapping with three languages. *)
Definition small_languages : LanguageFrequency :=
  [("Go", 5); ("Rust", 30); ("C", 1)].

(** The message with which an attempt fails, at the lookup or, after a
    successful lookup, at the generation call. *)
Definition attempt_failure (net : Network) : option string :=
  match lookup_failure (profile_result net) with
  | Some m => Some m
  | None => generate_failure (generate_result net)
  end.

(** The failing call was answered with a failure response whose body was
    parsed. *)
Definition answered_with_error (net : Network) : bool :=
  match profile_result net with
  | Responded (NotOk (JsonOk _)) => true
  | Responded (Ok (JsonOk _)) =>
      match generate_result net with
      | Responded (NotOk (JsonOk _)) => true
      | _ => false
      end
  | _ => false
  end.

(** How the form shows a message: not at all when it is empty
    ([{error && ...}], line 245). *)
Definition shown (m : string) : option string :=
  if truthy (Some m) then Some m else None.

(** Generate is clicked on the filled form: the lookup is pending. *)
Definition pending_config : Config := on_generate filled_config.

(** The lookup has succeeded: the generation call is pending. *)
Definition fetched_config : Config :=
  settle_first (profile_result network_up) (generate_result network_up)
    pending_config.

(** ** Attempts in the event loop *)

(** Every hook but [error] and [isLoading] has the value it had. *)
Definition unchanged_but_error_loading (s s' : State) : Prop :=
  formData s' = formData s ∧ githubData s' = githubData s ∧
  topProjects s' = topProjects s ∧ languages s' = languages s ∧
  showCV s' = showCV s.

(** Generate is clicked and the requests of that attempt settle, with the
    answers of [net], before any other event of the page. *)
Definition attempt_alone (net : Network) (c : Config) : Config :=
  settle_first (profile_result net) (generate_result net)
    (settle_first (profile_result net) (generate_result net)
       (on_generate c)).

(** Generate is clicked on the filled form, the name is edited while the
    lookup is pending, then the lookup and the generation call succeed. *)
Definition edited_preview_config : Config :=
  settle_first (profile_result network_up) (generate_result network_up)
    (settle_first (profile_result network_up) (generate_result network_up)
       (on_change {| target_name := "name"; target_value := "Grace" |}
          (on_generate filled_config))).
(** * Properties *)

(** ** The stable sort *)

Section sort_facts.
Context {A : Type} (cmp : A → A → Z).

Lemma sort_insert_perm x l : sort_insert cmp x l ≡ₚ x :: l.
Proof.
  induction l as [|y l IH]; simpl; [done|].
  destruct (cmp x y <=? 0); [done|].
  rewrite IH. apply Permutation_swap.
Qed.

Lemma Array_sort_perm l : Array_sort cmp l ≡ₚ l.
Proof.
  induction l as [|x l IH]; simpl; [done|].
  by rewrite sort_insert_perm, IH.
Qed.

Lemma Array_sort_length l : length (Array_sort cmp l) = length l.
Proof. by rewrite Array_sort_perm. Qed.

(** Elements that [P] selects compare as equal: then inserting keeps
    their order. *)
Lemma filter_sort_insert (P : A → Prop) `{!∀ x, Decision (P x)} x l :
  (∀ y, P x → P y → cmp x y ≤ 0) →
  filter P (sort_insert cmp x l) = filter P (x :: l).
Proof.
  intros HP. induction l as [|y l IH]; simpl; [done|].
  destruct (cmp x y <=? 0) eqn:Hc; [done|].
  apply Z.leb_gt in Hc.
  rewrite (filter_cons _ y), IH, !filter_cons.
  destruct (decide (P x)) as [Hx|Hx], (decide (P y)) as [Hy|Hy]; try done.
  specialize (HP y Hx Hy). lia.
Qed.

Lemma Array_sort_stable (P : A → Prop) `{!∀ x, Decision (P x)} l :
  (∀ x y, P x → P y → cmp x y ≤ 0) →
  filter P (Array_sort cmp l) = filter P l.
Proof.
  intros HP. induction l as [|x l IH]; simpl; [done|].
  rewrite filter_sort_insert by eauto.
  by rewrite !filter_cons, IH.
Qed.

(** For a consistent comparator the result is sorted. *)
Hypothesis cmp_total : ∀ x y, 0 < cmp x y → cmp y x ≤ 0.
Hypothesis cmp_trans : ∀ x y z, cmp x y ≤ 0 → cmp y z ≤ 0 → cmp x z ≤ 0.

Lemma sort_insert_sorted x l :
  StronglySorted (before cmp) l → StronglySorted (before cmp) (sort_insert cmp x l).
Proof.
  induction l as [|y l IH]; simpl; intros Hs.
  - repeat constructor.
  - apply StronglySorted_cons in Hs as [Hy Hs].
    destruct (cmp x y <=? 0) eqn:Hc.
    + apply Z.leb_le in Hc.
      apply StronglySorted_cons; split.
      * constructor; [done|].
        eapply Forall_impl; [exact Hy|]. intros z Hz.
        unfold before in *. eauto.
      * by apply StronglySorted_cons.
    + apply Z.leb_gt in Hc.
      apply StronglySorted_cons; split; [|by apply IH].
      rewrite sort_insert_perm. constructor; [|done].
      unfold before. by apply cmp_total.
Qed.

Lemma Array_sort_sorted l : StronglySorted (before cmp) (Array_sort cmp l).
Proof.
  induction l as [|x l IH]; simpl; [constructor|].
  by apply sort_insert_sorted.
Qed.
End sort_facts.

Lemma filter_take_prefix {A : Type} (P : A → Prop) `{!∀ x, Decision (P x)}
    (n : nat) (l : list A) :
  filter P (take n l) `prefix_of` filter P l.
Proof.
  exists (filter P (drop n l)).
  by rewrite <-filter_app, take_drop.
Qed.

(** ** [getTopLanguages] *)

Lemma sorted_entries (languages : LanguageFrequency) :
  StronglySorted descending (Array_sort compareFn (Object_entries languages)).
Proof.
  assert (Hs : StronglySorted (before compareFn)
                 (Array_sort compareFn (Object_entries languages))).
  { apply Array_sort_sorted; unfold compareFn; intros; lia. }
  induction Hs as [|x l _ IH Hx]; constructor; [done|].
  eapply Forall_impl; [exact Hx|].
  unfold before, compareFn, descending. intros y Hy. lia.
Qed.

(** The embedding of [sort] is no choice: a descending list that keeps the
    entries of every weight in their order is the list [Array_sort]
    returns, whatever algorithm the engine runs. *)
Lemma descending_stable_unique (l1 l2 : list (string * Z)) :
  StronglySorted descending l1 →
  StronglySorted descending l2 →
  (∀ w : Z, filter (λ e, e.2 = w) l1 = filter (λ e, e.2 = w) l2) →
  l1 = l2.
Proof.
  revert l2. induction l1 as [|x l1 IH]; intros [|y l2] H1 H2 Hf.
  - done.
  - specialize (Hf y.2). by rewrite filter_cons_True in Hf.
  - specialize (Hf x.2). by rewrite filter_cons_True in Hf.
  - apply StronglySorted_cons in H1 as [Hx H1].
    apply StronglySorted_cons in H2 as [Hy H2].
    assert (Hxy : x.2 ≤ y.2).
    { assert (Hin : x ∈ filter (λ e, e.2 = x.2) (y :: l2)).
      { rewrite <-Hf, filter_cons_True by done. apply elem_of_cons. by left. }
      apply list_elem_of_filter in Hin as [_ Hin].
      apply elem_of_cons in Hin as [->|Hin]; [done|].
      rewrite Forall_forall in Hy. by apply Hy. }
    assert (Hyx : y.2 ≤ x.2).
    { assert (Hin : y ∈ filter (λ e, e.2 = y.2) (x :: l1)).
      { rewrite Hf, filter_cons_True by done. apply elem_of_cons. by left. }
      apply list_elem_of_filter in Hin as [_ Hin].
      apply elem_of_cons in Hin as [->|Hin]; [done|].
      rewrite Forall_forall in Hx. by apply Hx. }
    assert (x = y) as ->.
    { specialize (Hf x.2).
      rewrite !filter_cons_True in Hf by lia. by injection Hf. }
    f_equal. apply IH; [done..|].
    intros w. specialize (Hf w). rewrite !filter_cons in Hf.
    destruct (decide (y.2 = w)); by simplify_eq.
Qed.

Lemma Array_sort_determined (l l' : list (string * Z)) :
  StronglySorted descending l' →
  (∀ w : Z, filter (λ e, e.2 = w) l' = filter (λ e, e.2 = w) l) →
  l' = Array_sort compareFn (Object_entries l).
Proof.
  intros Hs Hf. apply descending_stable_unique; [done|apply sorted_entries|].
  intros w. rewrite Hf. symmetry.
  apply (Array_sort_stable compareFn (λ e, e.2 = w)).
  unfold compareFn. intros x y Hx Hy. lia.
Qed.

(** C1: [getTopLanguages] returns at most 5 names, the names of the first
    entries of a descending arrangement of the whole mapping (so they are
    sorted by descending weight and no entry left out outweighs one of
    them); the empty mapping gives the empty sequence; on the example
    mapping the result has length 5, its weights are 30, 30, 10, 5, 2, and
    [C] is not in it. *)
Theorem getTopLanguages_top5 :
  (∀ languages : LanguageFrequency,
     (length (getTopLanguages languages) ≤ 5)%nat ∧
     length (getTopLanguages languages) = Nat.min 5 (length languages) ∧
     ∃ top rest : list (string * Z),
       getTopLanguages languages = top.*1 ∧
       top ++ rest ≡ₚ Object_entries languages ∧
       StronglySorted descending (top ++ rest)) ∧
  getTopLanguages [] = [] ∧
  getTopLanguages example_languages = ["JS"; "Rust"; "Python"; "Go"; "Java"] ∧
  length (getTopLanguages example_languages) = 5%nat ∧
  weight_of example_languages <$> getTopLanguages example_languages
    = [Some 30; Some 30; Some 10; Some 5; Some 2] ∧
  "C" ∉ getTopLanguages example_languages.
Proof.
  split; [|repeat split; try reflexivity].
  - intros languages.
    assert (Hlen : length (getTopLanguages languages)
                   = Nat.min 5 (length languages)).
    { unfold getTopLanguages, slice0, Object_entries.
      by rewrite length_fmap, length_take, Array_sort_length. }
    split; [lia|]. split; [done|].
    exists (take 5 (Array_sort compareFn (Object_entries languages))),
           (drop 5 (Array_sort compareFn (Object_entries languages))).
    split; [done|]. rewrite take_drop. split.
    + apply Array_sort_perm.
    + apply sorted_entries.
  - vm_compute. intros H.
    repeat (apply elem_of_cons in H as [H|H]; [discriminate H|]).
    by apply elem_of_nil in H.
Qed.

(** C9: ties are resolved by the enumeration order of the mapping: the
    result is the names of selected entries [top], and for every weight [w]
    the selected entries of weight [w] are, in the same order, the first
    entries of weight [w] of the mapping. *)
Theorem getTopLanguages_stable (languages : LanguageFrequency) :
  ∃ top : list (string * Z),
    getTopLanguages languages = top.*1 ∧
    ∀ w : Z,
      filter (λ e, e.2 = w) top
        `prefix_of` filter (λ e, e.2 = w) (Object_entries languages).
Proof.
  exists (slice0 5 (Array_sort compareFn (Object_entries languages))).
  split; [done|]. intros w. unfold slice0.
  rewrite <-(Array_sort_stable compareFn (λ e, e.2 = w) (Object_entries languages)).
  - apply filter_take_prefix.
  - unfold compareFn. intros x y Hx Hy. lia.
Qed.

(** ** [handleChange] *)

(** C10: [handleChange] on an input event for field [n] with value [v] sets
    [formData.n] to [v] and leaves every other field of [formData] and every
    other hook as it was.  (It holds for every property name [n], the
    form's nine fields among them.) *)
Theorem handleChange_frame (s : State) (n v : string) :
  let s' := handleChange {| target_name := n; target_value := v |} s in
  formData s' !! n = Some v ∧
  (∀ m : string, m ≠ n → formData s' !! m = formData s !! m) ∧
  githubData s' = githubData s ∧
  topProjects s' = topProjects s ∧
  languages s' = languages s ∧
  isLoading s' = isLoading s ∧
  error s' = error s ∧
  showCV s' = showCV s.
Proof.
  simpl. split; [apply lookup_insert_eq|].
  split; [|done].
  intros m Hm. by apply lookup_insert_ne.
Qed.

(** ** Validation *)

Lemma required_fields_checked (fd : gmap string string) (n : string) :
  n ∈ required_fields →
  truthy (fd !! n) = false →
  negb (truthy (fd !! "name")) || negb (truthy (fd !! "email"))
  || negb (truthy (fd !! "education"))
  || negb (truthy (fd !! "university")) = true.
Proof.
  unfold required_fields. intros Hn Hb.
  repeat (apply elem_of_cons in Hn as [->|Hn];
          [rewrite Hb; simpl; by rewrite ?orb_true_r|]).
  by apply elem_of_nil in Hn.
Qed.

Lemma form_complete_checks (fd : gmap string string) :
  form_complete fd = true →
  negb (truthy (fd !! "name")) || negb (truthy (fd !! "email"))
  || negb (truthy (fd !! "education"))
  || negb (truthy (fd !! "university")) = false
  ∧ truthy (fd !! "githubUsername") = true.
Proof.
  unfold form_complete, required_fields. simpl.
  intros H. repeat (apply andb_prop in H as [? H]).
  repeat match goal with
         | E : truthy _ = true |- _ => rewrite E; clear E
         | E : _ && _ = true |- _ => apply andb_prop in E as [? ?]
         end.
  done.
Qed.

(** C4: when one of [name], [email], [education], [university] is blank
    (empty, or absent from the object), [generateCV] sets the validation
    message and ends without any network event: neither the lookup nor the
    generation request is issued, and nothing is left pending. *)
Theorem generateCV_validation (s : State) (net : Network) (n : string) :
  n ∈ required_fields →
  truthy (formData s !! n) = false →
  run net (generateCV (formData s)) s
    = (setError "Please fill in all required fields" s, [], Returned ()) ∧
  advance (generateCV (formData s)) s
    = (setError "Please fill in all required fields" s, [], None).
Proof.
  intros Hn Hb. unfold generateCV.
  by rewrite (required_fields_checked _ n Hn Hb).
Qed.

Lemma generateCV_validation_witness :
  run network_up (generateCV (formData initialState)) initialState
    = (setError "Please fill in all required fields" initialState, [],
       Returned ()) ∧
  advance (generateCV (formData initialState)) initialState
    = (setError "Please fill in all required fields" initialState, [], None).
Proof.
  apply (generateCV_validation initialState network_up "email").
  - unfold required_fields. set_solver.
  - reflexivity.
Defined.

(** C5: when [githubUsername] is empty (or absent), [fetchGitHubData] sets
    the message [Please enter a GitHub username] and ends without any
    network event; the form rendered from that state shows the message. *)
Theorem fetchGitHubData_validation (s : State) (net : Network) :
  truthy (formData s !! "githubUsername") = false →
  run net (fetchGitHubData (formData s)) s
    = (setError "Please enter a GitHub username" s, [], Returned None) ∧
  (showCV s = false →
   render (final_state (run net (fetchGitHubData (formData s)) s))
     = FormView (formData s) (isLoading s)
         (Some "Please enter a GitHub username")).
Proof.
  intros Hb. unfold fetchGitHubData. rewrite Hb. split; [done|].
  intros Hs. unfold render. simpl. by rewrite Hs.
Qed.

Lemma fetchGitHubData_validation_witness :
  formData initialState !! "githubUsername" = Some "" ∧
  run network_up (fetchGitHubData (formData initialState)) initialState
    = (setError "Please enter a GitHub username" initialState, [],
       Returned None).
Proof.
  split; [reflexivity|].
  apply (fetchGitHubData_validation initialState network_up).
  reflexivity.
Defined.

(** ** One attempt on its own *)

(** The two ways [fetchGitHubData] ends once a username is present. *)
Lemma run_fetchGitHubData_failure (fd : gmap string string) (s : State)
    (net : Network) (m : string) :
  truthy (fd !! "githubUsername") = true →
  lookup_failure (profile_result net) = Some m →
  run net (fetchGitHubData fd) s
    = (setIsLoading false (setError m (setError "" (setIsLoading true s))),
       [IssueProfile (template (fd !! "githubUsername"));
        SettleProfile (profile_result net)],
       Returned None).
Proof.
  intros Hu Hm. unfold fetchGitHubData. rewrite Hu. simpl.
  destruct (profile_result net) as [m'|[[m'|b]|[m'|d]]];
    simpl in *; by simplify_eq.
Qed.

Lemma run_fetchGitHubData_success (fd : gmap string string) (s : State)
    (net : Network) (data : ProfileData) :
  truthy (fd !! "githubUsername") = true →
  profile_result net = Responded (Ok (JsonOk data)) →
  run net (fetchGitHubData fd) s
    = (setIsLoading false
         (setLanguages (languages_of data)
            (setTopProjects (top_repos data)
               (setGithubData (Some (user_data data))
                  (setError "" (setIsLoading true s))))),
       [IssueProfile (template (fd !! "githubUsername"));
        SettleProfile (profile_result net)],
       Returned (Some data)).
Proof.
  intros Hu Hr. unfold fetchGitHubData. rewrite Hu. simpl. by rewrite Hr.
Qed.

(** [run] through a sequence. *)
Lemma run_bind {A B : Type} (net : Network) (p : Proc A) (f : A → Proc B)
    (s : State) :
  run net (p ≫= f) s =
    match run net p s with
    | (s1, t1, Returned a) =>
        let '(s2, t2, c) := run net (f a) s1 in (s2, t1 ++ t2, c)
    | (s1, t1, Rejected m) => (s1, t1, Rejected m)
    end.
Proof.
  revert s. induction p as [a|m|g k IH|u k IH|b k IH]; intros s; simpl.
  - unfold mbind, Proc_mbind; simpl. by destruct (run net (f a) s) as [[??]?].
  - done.
  - apply IH.
  - unfold mbind, Proc_mbind in *; simpl. rewrite IH.
    by destruct (run net (k (profile_result net)) s) as [[??][?|?]];
      [destruct (run net (f _) _) as [[??]?]|].
  - unfold mbind, Proc_mbind in *; simpl. rewrite IH.
    by destruct (run net (k (generate_result net)) s) as [[??][?|?]];
      [destruct (run net (f _) _) as [[??]?]|].
Qed.

(** The generation stage of [generateCV] (lines 89-111). *)
Lemma run_generateCV_lookup_failed (fd : gmap string string) (s : State)
    (net : Network) (m : string) :
  form_complete fd = true →
  lookup_failure (profile_result net) = Some m →
  run net (generateCV fd) s
    = (setIsLoading false (setError m (setError "" (setIsLoading true s))),
       [IssueProfile (template (fd !! "githubUsername"));
        SettleProfile (profile_result net)],
       Returned ()).
Proof.
  intros [Hreq Hu]%form_complete_checks Hm. unfold generateCV.
  rewrite Hreq, run_bind, (run_fetchGitHubData_failure _ _ _ m) by done.
  done.
Qed.

Lemma run_generateCV_lookup_succeeded (fd : gmap string string) (s : State)
    (net : Network) (data : ProfileData) :
  form_complete fd = true →
  profile_result net = Responded (Ok (JsonOk data)) →
  let s1 :=
    setIsLoading false
      (setLanguages (languages_of data)
         (setTopProjects (top_repos data)
            (setGithubData (Some (user_data data))
               (setError "" (setIsLoading true s))))) in
  run net (generateCV fd) s
    = (match generate_failure (generate_result net) with
       | Some m => setError m s1
       | None => setShowCV true s1
       end,
       [IssueProfile (template (fd !! "githubUsername"));
        SettleProfile (profile_result net);
        IssueGenerate {| personalInfo := fd; payload_githubData := data |};
        SettleGenerate (generate_result net)],
       Returned ()).
Proof.
  intros [Hreq Hu]%form_complete_checks Hr. unfold generateCV.
  rewrite Hreq, run_bind, (run_fetchGitHubData_success _ _ _ data) by done.
  simpl.
  destruct (generate_result net) as [m'|[[m'|b]|body]]; simpl; done.
Qed.

(** ** Failures *)



Example lookup_refused_example :
  let r := run lookup_refused (generateCV (formData example_state))
             example_state in
  error (final_state r) = "User not found" ∧
  showCV (final_state r) = false ∧
  trace r = [IssueProfile "ada"; SettleProfile (profile_result lookup_refused)].
Proof. by vm_compute. Qed.


(** An attempt on its own that fails, started with the loading flag off.  A
    failed lookup sets the message and changes nothing else.  A failed
    generation call sets the message and leaves [formData], [isLoading] and
    [showCV] as they were, while [githubData], [topProjects] and
    [languages] hold what the lookup of that attempt returned. *)
Theorem generateCV_failure (s : State) (net : Network) :
  form_complete (formData s) = true →
  isLoading s = false →
  let s' := final_state (run net (generateCV (formData s)) s) in
  (∀ m, lookup_failure (profile_result net) = Some m →
        error s' = m ∧ unchanged_but_error s s') ∧
  (∀ data m,
     profile_result net = Responded (Ok (JsonOk data)) →
     generate_failure (generate_result net) = Some m →
     error s' = m ∧ holds_fetched s' data ∧
     formData s' = formData s ∧ isLoading s' = isLoading s ∧
     showCV s' = showCV s).
Proof.
  intros Hc Hl s'. split.
  - intros m Hm. subst s'.
    rewrite (run_generateCV_lookup_failed _ _ _ m) by done.
    unfold unchanged_but_error. simpl. by rewrite Hl.
  - intros data m Hr Hm. subst s'.
    rewrite (run_generateCV_lookup_succeeded _ _ _ data) by done.
    rewrite Hm. unfold holds_fetched. simpl. by rewrite Hl.
Qed.

(** C2 as stated fails when the generation call fails: the attempt ends
    with the form shown and the message set, but [languages] holds the
    fetched mapping and not its value before the attempt. *)
Lemma partial_state_counterexample :
  generate_failure (generate_result generation_refused)
    = Some "No data provided" ∧
  showCV (final_state
            (run generation_refused (generateCV (formData example_state))
               example_state)) = false ∧
  languages example_state = [] ∧
  languages (final_state
               (run generation_refused (generateCV (formData example_state))
                  example_state)) = example_languages ∧
  ¬ unchanged_but_error example_state
      (final_state
         (run generation_refused (generateCV (formData example_state))
            example_state)).
Proof.
  repeat split.
  intros (_ & _ & _ & Hl & _). vm_compute in Hl. discriminate Hl.
Qed.

(** ** The order of the two calls *)

(** C7: the network events of an attempt are none (a check failed), or the
    lookup alone when it failed, or the lookup, its successful settlement,
    then the generation request carrying the form and the fetched data, and
    its settlement.  So the generation request is issued only after the
    lookup has settled successfully, and never after a failed lookup. *)
Theorem generateCV_sequential (fd : gmap string string) (s : State)
    (net : Network) :
  let tr := trace (run net (generateCV fd) s) in
  (tr = [] ∨
   (∃ u, is_Some (lookup_failure (profile_result net)) ∧
         tr = [IssueProfile u; SettleProfile (profile_result net)]) ∨
   (∃ u data,
      profile_result net = Responded (Ok (JsonOk data)) ∧
      tr = [IssueProfile u;
            SettleProfile (Responded (Ok (JsonOk data)));
            IssueGenerate {| personalInfo := fd; payload_githubData := data |};
            SettleGenerate (generate_result net)])) ∧
  (is_Some (lookup_failure (profile_result net)) →
   List.filter is_generate_request tr = []).
Proof.
  intros tr. subst tr.
  destruct (form_complete fd) eqn:Hc.
  - destruct (lookup_failure (profile_result net)) as [m|] eqn:Hm.
    + rewrite (run_generateCV_lookup_failed _ _ _ m) by done.
      split; [|done]. right; left. eauto.
    + destruct (profile_result net) as [?|[[?|?]|[?|d]]] eqn:Hr; try done.
      pose proof (run_generateCV_lookup_succeeded fd s net d Hc Hr) as Hrun.
      simpl in Hrun. rewrite Hrun, Hr. split.
      * right; right. eauto.
      * by intros [? ?].
  - assert (trace (run net (generateCV fd) s) = []) as ->; [|by split; [left|]].
    unfold form_complete, required_fields in Hc. simpl in Hc.
    unfold generateCV, fetchGitHubData.
    destruct (truthy (fd !! "name")); [|done].
    destruct (truthy (fd !! "email")); [|done].
    destruct (truthy (fd !! "education")); [|done].
    destruct (truthy (fd !! "university")); [|done].
    destruct (truthy (fd !! "githubUsername")); [done|].
    done.
Qed.

(** ** Success *)

(** An attempt on its own in which the lookup and then the generation call
    succeed ends with [showCV] true, and the page rendered from that state
    is the preview: its heading is the submitted name, its contact line
    starts with the submitted email, and its languages line is the top-5
    sequence of the fetched mapping joined by commas. *)
Theorem generateCV_success (s : State) (net : Network) (data : ProfileData)
    (body : JsonResult unit) (name email : string) :
  form_complete (formData s) = true →
  formData s !! "name" = Some name →
  formData s !! "email" = Some email →
  profile_result net = Responded (Ok (JsonOk data)) →
  generate_result net = Responded (Ok body) →
  let s' := final_state (run net (generateCV (formData s)) s) in
  showCV s' = true ∧
  holds_fetched s' data ∧
  ∃ doc : Document,
    render s' = PreviewView doc ∧
    doc_heading doc = name ∧
    head (doc_contact doc) = Some email ∧
    doc_languages doc = join ", " (getTopLanguages (languages_of data)).
Proof.
  intros Hc Hn He Hr Hg s'. subst s'.
  rewrite (run_generateCV_lookup_succeeded _ _ _ data) by done.
  rewrite Hg. simpl. split; [done|]. split; [done|].
  eexists. split; [reflexivity|]. simpl.
  by rewrite Hn, He.
Qed.

(** ** The event loop *)

Lemma last_fetched_app (h h' : list Event) :
  last_fetched (h ++ h') =
    match last_fetched h' with
    | Some d => Some d
    | None => last_fetched h
    end.
Proof.
  induction h as [|e h IH]; simpl.
  - by destruct (last_fetched h').
  - rewrite IH. by destruct (last_fetched h').
Qed.

Lemma waiting_ok_app (h h' : list Event) (w : Waiting) :
  waiting_ok h w → waiting_ok (h ++ h') w.
Proof.
  destruct w as [k|k]; simpl; [done|].
  intros [Hk Hs]. split; [done|].
  rewrite last_fetched_app. by destruct (last_fetched h').
Qed.

Lemma generate_after_lookup_app (h evs : list Event) :
  generate_after_lookup h →
  (∀ i b, evs !! i = Some (IssueGenerate b) →
     ∃ j, (j < length h + i)%nat ∧
          (h ++ evs) !! j
            = Some (SettleProfile
                      (Responded (Ok (JsonOk (payload_githubData b)))))) →
  generate_after_lookup (h ++ evs).
Proof.
  intros Hh He i b Hi.
  destruct (decide (i < length h)%nat) as [Hlt|Hge].
  - rewrite lookup_app_l in Hi by done.
    destruct (Hh i b Hi) as (j & Hj & Hs).
    exists j. split; [done|]. rewrite lookup_app_l by lia. done.
  - rewrite lookup_app_r in Hi by lia.
    destruct (He _ _ Hi) as (j & Hj & Hs).
    exists j. split; [lia|done].
Qed.

(** The continuation of the generation stage. *)
Lemma generate_stage_ok (fd : gmap string string) (data : ProfileData) :
  generate_cont_ok
    (λ r, try_catch
            (Proc_bind
               (λ response : HttpResponse unit,
                  match response with
                  | NotOk body =>
                      await_json body ≫= λ errorData,
                        Throw (js_or (error_field errorData)
                                 "Failed to generate CV")
                  | Ok _ => call (setShowCV true)
                  end)
               match r with
               | NetworkFailure m => Throw m
               | Responded resp => Ret resp
               end)
            (λ message, call (setError message))).
Proof.
  intros r s. destruct r as [m|[[m|b]|body]]; simpl;
    eexists; (split; [reflexivity|done]).
Qed.

(** What clicking Generate does at once: it ends (a check failed), or it
    issues the lookup and waits. *)
Lemma advance_generateCV (fd : gmap string string) (s : State) :
  (∃ s', advance (generateCV fd) s = (s', [], None) ∧
         keeps_fetched s s' ∧ showCV s' = showCV s) ∨
  (∃ s' k,
     advance (generateCV fd) s
       = (s', [IssueProfile (template (fd !! "githubUsername"))],
          Some (WaitProfile k)) ∧
     lookup_cont_ok k ∧ keeps_fetched s s' ∧ showCV s' = showCV s).
Proof.
  unfold generateCV, fetchGitHubData.
  destruct (truthy (fd !! "name")); [|left; by eexists].
  destruct (truthy (fd !! "email")); [|left; by eexists].
  destruct (truthy (fd !! "education")); [|left; by eexists].
  destruct (truthy (fd !! "university")); [|left; by eexists].
  destruct (truthy (fd !! "githubUsername")); [|left; by eexists].
  right. simpl. eexists _, _. split; [reflexivity|]. split; [|done].
  intros r s0. destruct r as [m|[[m|b]|[m|d]]]; simpl;
    try (eexists; split; [reflexivity|done]).
  eexists _, _, _. split; [reflexivity|].
  split; [apply (generate_stage_ok fd d)|done].
Qed.

Lemma invariant_init : invariant initialConfig.
Proof.
  split; [done|]. split; [done|]. split; [constructor|].
  intros i b Hi. simpl in Hi. by destruct i.
Qed.

Lemma holds_fetched_keeps (s s' : State) (data : ProfileData) :
  keeps_fetched s s' → holds_fetched s data → holds_fetched s' data.
Proof.
  intros (Hg & Ht & Hl) (Hg' & Ht' & Hl'). unfold holds_fetched.
  by rewrite Hg, Ht, Hl.
Qed.

Lemma Forall_waiting_delete (h h' : list Event) (i : nat)
    (ws : list Waiting) :
  Forall (waiting_ok h) ws → Forall (waiting_ok (h ++ h')) (delete i ws).
Proof.
  intros Hws. apply Forall_forall. intros w Hw.
  apply waiting_ok_app. eapply Forall_forall; [exact Hws|].
  eapply list_elem_of_delete_inv, Hw.
Qed.

Lemma step_invariant (c c' : Config) : invariant c → step c c' → invariant c'.
Proof.
  intros (Hdata & Hshow & Hpend & Hhist) Hstep.
  destruct Hstep as [c e Hs Hn|c Hs|c Hs|c i k r Hi|c i k r Hi].
  - (* a field is edited *)
    split; [exact Hdata|]. split; [exact Hshow|]. by split.
  - (* Generate is clicked *)
    unfold on_generate, resume.
    destruct (advance_generateCV (formData (ui c)) (ui c))
      as [(s' & -> & Hk & Hv)|(s' & k & -> & Hlk & Hk & Hv)]; simpl.
    + rewrite app_nil_r. split; [|split; [|split]]; simpl; rewrite ?app_nil_r.
      * intros d Hd. eapply holds_fetched_keeps; [eassumption|]. by apply Hdata.
      * by rewrite Hv.
      * done.
      * done.
    + split; [|split; [|split]]; simpl.
      * intros d Hd. rewrite last_fetched_app in Hd.
        eapply holds_fetched_keeps; [eassumption|]. by apply Hdata.
      * rewrite Hv, last_fetched_app. done.
      * apply Forall_app. split.
        -- eapply Forall_impl; [exact Hpend|]. intros. by apply waiting_ok_app.
        -- by repeat constructor.
      * apply generate_after_lookup_app; [done|].
        intros [|[|?]] b Hb; by simplify_eq.
  - (* Back is clicked *)
    split; [exact Hdata|]. split; [done|]. by split.
  - (* a lookup settles *)
    unfold on_settle_profile, resume.
    assert (Hk : lookup_cont_ok k).
    { eapply Forall_lookup_1 in Hpend; [|exact Hi]. exact Hpend. }
    specialize (Hk r (ui c)).
    destruct (lookup_success (SettleProfile r)) as [data|] eqn:Hr.
    + destruct Hk as (s' & b & k' & -> & Hk' & Hf & Hv & Hb). simpl.
      assert (Hlast : last_fetched
                        (history c ++ [SettleProfile r; IssueGenerate b])
                      = Some data).
      { rewrite last_fetched_app. simpl. simpl in Hr. by rewrite Hr. }
      split; [|split; [|split]]; simpl; rewrite ?Hlast.
      * intros d Hd. by injection Hd as <-.
      * done.
      * apply Forall_app. split.
        -- by apply Forall_waiting_delete.
        -- repeat constructor; simpl; [done|]. by rewrite Hlast.
      * apply generate_after_lookup_app; [done|].
        intros [|[|?]] b' Hb'; simpl in Hb'; simplify_eq.
        exists (length (history c)). split; [lia|].
        rewrite lookup_app_r, Nat.sub_diag by done. simpl.
        destruct r as [?|[?|[?|?]]]; simpl in Hr; by simplify_eq.
    + destruct Hk as (s' & -> & Hk & Hv). simpl.
      assert (Hlast : last_fetched (history c ++ [SettleProfile r])
                      = last_fetched (history c)).
      { rewrite last_fetched_app. simpl. simpl in Hr. by rewrite Hr. }
      split; [|split; [|split]]; simpl; rewrite ?app_nil_r, ?Hlast.
      * intros d Hd. eapply holds_fetched_keeps; [eassumption|]. by apply Hdata.
      * by rewrite Hv.
      * rewrite <-(app_nil_r (history c ++ _)), <-app_assoc.
        by apply Forall_waiting_delete.
      * apply generate_after_lookup_app; [done|].
        intros [|?] b Hb; by simplify_eq.
  - (* a generation call settles *)
    unfold on_settle_generate, resume.
    assert (Hk : generate_cont_ok k ∧ is_Some (last_fetched (history c))).
    { eapply Forall_lookup_1 in Hpend; [|exact Hi]. exact Hpend. }
    destruct Hk as [Hk Hsome].
    destruct (Hk r (ui c)) as (s' & -> & Hkeep). simpl.
    assert (Hlast : last_fetched (history c ++ [SettleGenerate r])
                    = last_fetched (history c)).
    { by rewrite last_fetched_app. }
    split; [|split; [|split]]; simpl; rewrite ?app_nil_r, ?Hlast.
    + intros d Hd. eapply holds_fetched_keeps; [eassumption|]. by apply Hdata.
    + done.
    + by apply Forall_waiting_delete.
    + apply generate_after_lookup_app; [done|].
      intros [|?] b Hb; by simplify_eq.
Qed.

Lemma reachable_invariant (c : Config) : reachable c → invariant c.
Proof.
  induction 1 as [|c c' _ IH Hstep]; [apply invariant_init|].
  by apply (step_invariant c).
Qed.

(** C3: in every reachable configuration in which the preview is shown
    ([showCV] is true), a lookup has settled successfully before, and
    [githubData], [topProjects] and [languages] hold the data the latest
    successful lookup returned; so the preview is never reached before a
    successful lookup. *)
Theorem preview_after_fetch (c : Config) :
  reachable c →
  showCV (ui c) = true →
  ∃ data : ProfileData,
    last_fetched (history c) = Some data ∧
    SettleProfile (Responded (Ok (JsonOk data))) ∈ history c ∧
    holds_fetched (ui c) data.
Proof.
  intros (Hdata & Hshow & _)%reachable_invariant Hs.
  destruct (Hshow Hs) as [data Hd].
  exists data. split; [done|]. split; [|by apply Hdata].
  clear -Hd. induction (history c) as [|e h IH]; [done|].
  simpl in Hd. destruct (last_fetched h) as [d|].
  - apply elem_of_cons. right. by apply IH.
  - apply elem_of_cons. left.
    destruct e as [|[|[|[|]]]| |]; simpl in Hd; by simplify_eq.
Qed.

Lemma settle_first_reachable (rp : FetchResult ProfileData)
    (rg : FetchResult unit) (c : Config) :
  reachable c → reachable (settle_first rp rg c).
Proof.
  intros Hc. unfold settle_first.
  destruct (pending c) as [|[k|k] rest] eqn:Hp; [done| |];
    (eapply reachable_step; [exact Hc|]); constructor; by rewrite Hp.
Qed.

Lemma filled_config_reachable : reachable filled_config.
Proof.
  unfold filled_config.
  repeat (eapply reachable_step;
          [|apply step_change; [reflexivity|unfold form_fields; set_solver]]).
  apply reachable_init.
Qed.

Lemma preview_config_reachable : reachable preview_config.
Proof.
  unfold preview_config. do 2 apply settle_first_reachable.
  eapply reachable_step; [apply filled_config_reachable|].
  by apply step_generate.
Qed.

Lemma preview_after_fetch_witness :
  showCV (ui preview_config) = true ∧
  ∃ data : ProfileData,
    last_fetched (history preview_config) = Some data ∧
    SettleProfile (Responded (Ok (JsonOk data))) ∈ history preview_config ∧
    holds_fetched (ui preview_config) data.
Proof.
  split; [reflexivity|].
  apply (preview_after_fetch preview_config preview_config_reachable).
  reflexivity.
Defined.

(** The order of the calls holds across interleaved attempts too: in every
    reachable history a generation request comes after the successful
    settlement of a lookup that returned the data it carries. *)
Lemma history_generate_after_lookup (c : Config) :
  reachable c → generate_after_lookup (history c).
Proof. by intros (_ & _ & _ & Hh)%reachable_invariant. Qed.

(** An attempt run on its own is a run of the event loop: from a
    configuration with nothing pending, clicking Generate and letting its
    requests settle ends in the state and with the events of [run]. *)
Lemma run_is_event_loop (net : Network) (c : Config) :
  pending c = [] →
  let c' :=
    settle_first (profile_result net) (generate_result net)
      (settle_first (profile_result net) (generate_result net)
         (on_generate c)) in
  ui c' = final_state (run net (generateCV (formData (ui c))) (ui c)) ∧
  history c'
    = history c ++ trace (run net (generateCV (formData (ui c))) (ui c)) ∧
  pending c' = [].
Proof.
  intros Hp. unfold on_generate, resume, generateCV, fetchGitHubData.
  rewrite Hp.
  destruct (truthy (formData (ui c) !! "name"));
    [|simpl; unfold settle_first; simpl; done].
  destruct (truthy (formData (ui c) !! "email"));
    [|simpl; unfold settle_first; simpl; done].
  destruct (truthy (formData (ui c) !! "education"));
    [|simpl; unfold settle_first; simpl; done].
  destruct (truthy (formData (ui c) !! "university"));
    [|simpl; unfold settle_first; simpl; done].
  destruct (truthy (formData (ui c) !! "githubUsername"));
    [|simpl; unfold settle_first; simpl; done].
  simpl. unfold settle_first, on_settle_profile, resume. simpl.
  destruct (profile_result net) as [m|[[m|b]|[m|d]]]; simpl;
    rewrite <-?app_assoc; try done.
  unfold on_settle_generate, resume. simpl.
  destruct (generate_result net) as [m|[[m|b]|body]]; simpl;
    by rewrite <-?app_assoc.
Qed.

(** * Further properties of the code *)

(** ** [getTopLanguages], by name *)

(** Close a decidable goal about concrete data by evaluation. *)
Ltac by_decide := apply (bool_decide_unpack _); vm_compute; exact I.

Lemma weight_of_elem (o : LanguageFrequency) (n : string) (w : Z) :
  NoDup o.*1 → (n, w) ∈ o → weight_of o n = Some w.
Proof.
  induction o as [|[k v] o IH]; simpl; intros Hnd Hin.
  - by apply elem_of_nil in Hin.
  - apply NoDup_cons in Hnd as [Hk Hnd].
    apply elem_of_cons in Hin as [Heq|Hin].
    + injection Heq as -> ->. by rewrite String.eqb_refl.
    + destruct (String.eqb_spec k n) as [->|Hne]; [|by apply IH].
      exfalso. apply Hk. change n with ((n, w).1).
      by apply list_elem_of_fmap_2.
Qed.

Lemma sorted_entries_perm (o : LanguageFrequency) :
  Array_sort compareFn (Object_entries o) ≡ₚ o.
Proof. apply Array_sort_perm. Qed.

Lemma top_entries_split (o : LanguageFrequency) :
  ∃ top rest : list (string * Z),
    getTopLanguages o = top.*1 ∧
    top = take 5 (top ++ rest) ∧
    top ++ rest ≡ₚ o ∧
    StronglySorted descending (top ++ rest).
Proof.
  exists (take 5 (Array_sort compareFn (Object_entries o))),
         (drop 5 (Array_sort compareFn (Object_entries o))).
  rewrite take_drop. split; [done|]. split; [done|].
  split; [apply sorted_entries_perm|apply sorted_entries].
Qed.

Lemma descending_names (o : LanguageFrequency) (es : list (string * Z)) :
  NoDup o.*1 →
  (∀ e, e ∈ es → e ∈ o) →
  StronglySorted descending es →
  StronglySorted (outweighs o) es.*1.
Proof.
  intros Hnd Hin Hs. induction Hs as [|[n w] es Hs IH Hx]; csimpl.
  - constructor.
  - constructor.
    + apply IH. intros e He. apply Hin. by right.
    + apply Forall_fmap, Forall_forall. intros [m v] Hm.
      rewrite Forall_forall in Hx. specialize (Hx _ Hm).
      exists w, v. split; [|split; [|exact Hx]].
      * apply weight_of_elem; [done|]. apply Hin. by left.
      * apply weight_of_elem; [done|]. apply Hin. by right.
Qed.

(** X1: for a mapping whose keys are distinct (as the keys of an object
    are), the names returned are distinct keys of the mapping, and their
    weights, read back from the mapping by name, are in descending order. *)
Theorem getTopLanguages_names_sorted (o : LanguageFrequency) :
  NoDup o.*1 →
  NoDup (getTopLanguages o) ∧
  getTopLanguages o ⊆ o.*1 ∧
  StronglySorted (outweighs o) (getTopLanguages o).
Proof.
  intros Hnd.
  destruct (top_entries_split o) as (top & rest & -> & Htake & Hperm & Hs).
  assert (Hin : ∀ e, e ∈ top → e ∈ o).
  { intros e He. rewrite <-Hperm. apply elem_of_app. by left. }
  split; [|split].
  - assert (Hall : NoDup (top ++ rest).*1) by (by rewrite Hperm).
    rewrite fmap_app in Hall. by apply NoDup_app in Hall as [? _].
  - intros n [e [-> He]]%list_elem_of_fmap.
    by apply list_elem_of_fmap_2, Hin.
  - apply descending_names; [done..|].
    by apply StronglySorted_app_1_l in Hs.
Qed.

Lemma getTopLanguages_names_sorted_witness :
  NoDup (getTopLanguages example_languages) ∧
  getTopLanguages example_languages ⊆ example_languages.*1 ∧
  StronglySorted (outweighs example_languages)
    (getTopLanguages example_languages).
Proof.
  apply (getTopLanguages_names_sorted example_languages).
  by_decide.
Defined.

(** X2: a mapping of at most five languages loses none: the result is a
    rearrangement of all its keys. *)
Theorem getTopLanguages_small (o : LanguageFrequency) :
  (length o ≤ 5)%nat →
  getTopLanguages o ≡ₚ o.*1.
Proof.
  intros Hlen. unfold getTopLanguages, slice0, Object_entries.
  rewrite take_ge by (by rewrite Array_sort_length).
  by rewrite Array_sort_perm.
Qed.

Lemma getTopLanguages_small_witness :
  getTopLanguages small_languages ≡ₚ small_languages.*1.
Proof.
  apply (getTopLanguages_small small_languages). vm_compute. lia.
Defined.

(** X3: no language left out outweighs one that is returned: for distinct
    keys, every returned name weighs at least as much as every key of the
    mapping that is not returned. *)
Theorem getTopLanguages_omitted (o : LanguageFrequency) (n m : string) :
  NoDup o.*1 →
  n ∈ getTopLanguages o →
  m ∈ o.*1 →
  m ∉ getTopLanguages o →
  outweighs o n m.
Proof.
  intros Hnd Hn Hm Hout.
  destruct (top_entries_split o) as (top & rest & Heq & _ & Hperm & Hs).
  rewrite Heq in Hn, Hout.
  apply list_elem_of_fmap in Hn as ([n' wn] & -> & Hn).
  apply list_elem_of_fmap in Hm as ([m' wm] & -> & Hm).
  rewrite <-Hperm in Hm. apply elem_of_app in Hm as [Hm|Hm].
  { exfalso. apply Hout. by apply (list_elem_of_fmap_2 fst) in Hm. }
  exists wn, wm. split; [|split].
  - apply weight_of_elem; [done|]. rewrite <-Hperm, elem_of_app. by left.
  - apply weight_of_elem; [done|]. rewrite <-Hperm, elem_of_app. by right.
  - by apply (StronglySorted_app_1_elem_of _ _ _ _ _ Hs Hn Hm).
Qed.

Lemma getTopLanguages_omitted_witness :
  outweighs example_languages "Java" "C".
Proof.
  apply (getTopLanguages_omitted example_languages "Java" "C").
  - by_decide.
  - by_decide.
  - by_decide.
  - by_decide.
Defined.

Lemma NoDup_fmap_eq {A B : Type} (f : A → B) (l : list A) (x y : A) :
  NoDup (f <$> l) → x ∈ l → y ∈ l → f x = f y → x = y.
Proof.
  induction l as [|a l IH]; csimpl; intros Hnd Hx Hy Hf.
  - by apply elem_of_nil in Hx.
  - apply NoDup_cons in Hnd as [Ha Hnd].
    apply elem_of_cons in Hx as [->|Hx]; apply elem_of_cons in Hy as [->|Hy].
    + done.
    + exfalso. apply Ha. rewrite Hf. by apply list_elem_of_fmap_2.
    + exfalso. apply Ha. rewrite <-Hf. by apply list_elem_of_fmap_2.
    + by apply IH.
Qed.

(** X4: when all weights differ, the result does not depend on the order in
    which the mapping's properties are enumerated. *)
Theorem getTopLanguages_order_independent (o1 o2 : LanguageFrequency) :
  o1 ≡ₚ o2 →
  NoDup o1.*2 →
  getTopLanguages o1 = getTopLanguages o2.
Proof.
  intros Hperm Hnd. unfold getTopLanguages. do 2 f_equal.
  apply (StronglySorted_unique_strong descending);
    [|apply sorted_entries..|by rewrite !sorted_entries_perm].
  intros x y Hx Hy Hxy Hyx.
  rewrite sorted_entries_perm in Hx. rewrite sorted_entries_perm, <-Hperm in Hy.
  apply (NoDup_fmap_eq snd o1); [done..|].
  unfold descending in *. lia.
Qed.

Lemma getTopLanguages_order_independent_witness :
  getTopLanguages distinct_languages = getTopLanguages reordered_languages.
Proof.
  apply (getTopLanguages_order_independent distinct_languages
           reordered_languages).
  - unfold distinct_languages, reordered_languages.
    apply NoDup_Permutation.
    + apply (NoDup_fmap_1 fst). by_decide.
    + apply (NoDup_fmap_1 fst). by_decide.
    + intros x. rewrite !elem_of_cons, !elem_of_nil. tauto.
  - by_decide.
Defined.

(** ** [handleChange], composed *)

(** X5: two edits of the same field compose to the later one. *)
Theorem handleChange_overwrite (s : State) (n v1 v2 : string) :
  handleChange {| target_name := n; target_value := v2 |}
    (handleChange {| target_name := n; target_value := v1 |} s)
  = handleChange {| target_name := n; target_value := v2 |} s.
Proof.
  unfold handleChange, setFormData. simpl. by rewrite insert_insert_eq.
Qed.

(** X6: edits of different fields commute. *)
Theorem handleChange_comm (s : State) (n1 n2 v1 v2 : string) :
  n1 ≠ n2 →
  handleChange {| target_name := n1; target_value := v1 |}
    (handleChange {| target_name := n2; target_value := v2 |} s)
  = handleChange {| target_name := n2; target_value := v2 |}
      (handleChange {| target_name := n1; target_value := v1 |} s).
Proof.
  intros Hne. unfold handleChange, setFormData. simpl.
  f_equal. by apply insert_insert_ne.
Qed.

Lemma handleChange_comm_witness :
  handleChange {| target_name := "name"; target_value := "Ada" |}
    (handleChange {| target_name := "email"; target_value := "a@b.c" |}
       initialState)
  = handleChange {| target_name := "email"; target_value := "a@b.c" |}
      (handleChange {| target_name := "name"; target_value := "Ada" |}
         initialState).
Proof.
  apply (handleChange_comm initialState "name" "email" "Ada" "a@b.c").
  discriminate.
Defined.

(** X7: an event that carries the value the field already has changes
    nothing, and an event for a name that is no property yet adds it (the
    object is extended): the keys after an edit are the keys before it and
    the edited name. *)
Theorem handleChange_keys (s : State) (n v : string) :
  let s' := handleChange {| target_name := n; target_value := v |} s in
  dom (formData s') = {[n]} ∪ dom (formData s) ∧
  (formData s !! n = Some v → s' = s) ∧
  (n ∈ dom (formData s) → dom (formData s') = dom (formData s)).
Proof.
  simpl. split; [apply dom_insert_L|]. split.
  - intros Hv. unfold handleChange, setFormData. simpl.
    rewrite insert_id by done. by destruct s.
  - intros Hn. unfold handleChange. simpl. rewrite dom_insert_L.
    apply subseteq_union_1_L. by apply singleton_subseteq_l.
Qed.

(** ** [fetchGitHubData] and [generateCV], one attempt *)

Lemma truthy_template (v : option string) :
  truthy v = true → v = Some (template v) ∧ template v ≠ "".
Proof.
  destruct v as [u|]; simpl; [|done].
  destruct (String.eqb_spec u ""); by intros.
Qed.

(** X8: a successful lookup issues one request, for the username of the
    form, returns the data, stores [user_data], [top_repos] and [languages],
    clears an earlier error message, ends with the loading flag off, and
    leaves [formData] and [showCV] alone. *)
Theorem fetchGitHubData_success (s : State) (net : Network) (u : string)
    (data : ProfileData) :
  formData s !! "githubUsername" = Some u →
  u ≠ "" →
  profile_result net = Responded (Ok (JsonOk data)) →
  ∃ s' : State,
    run net (fetchGitHubData (formData s)) s
      = (s', [IssueProfile u; SettleProfile (profile_result net)],
         Returned (Some data)) ∧
    holds_fetched s' data ∧
    error s' = "" ∧ isLoading s' = false ∧
    formData s' = formData s ∧ showCV s' = showCV s.
Proof.
  intros Hu Hne Hr.
  assert (Ht : truthy (formData s !! "githubUsername") = true).
  { rewrite Hu. simpl. by destruct (String.eqb_spec u ""). }
  eexists. rewrite (run_fetchGitHubData_success _ _ _ data) by done.
  rewrite Hu. simpl. done.
Qed.

Lemma fetchGitHubData_success_witness :
  ∃ s' : State,
    run network_up (fetchGitHubData (formData example_state)) example_state
      = (s', [IssueProfile "ada"; SettleProfile (profile_result network_up)],
         Returned (Some example_profile)) ∧
    holds_fetched s' example_profile ∧
    error s' = "" ∧ isLoading s' = false ∧
    formData s' = formData example_state ∧ showCV s' = showCV example_state.
Proof.
  apply (fetchGitHubData_success example_state network_up "ada"
           example_profile).
  - reflexivity.
  - discriminate.
  - reflexivity.
Defined.

(** X9: the GitHub username is required too: with the four required fields
    filled in and the username empty (or absent), [generateCV] sets the
    message [Please enter a GitHub username], issues no request and changes
    nothing else. *)
Theorem generateCV_username_required (s : State) (net : Network) :
  forallb (λ n, truthy (formData s !! n)) required_fields = true →
  truthy (formData s !! "githubUsername") = false →
  run net (generateCV (formData s)) s
    = (setError "Please enter a GitHub username" s, [], Returned ()) ∧
  advance (generateCV (formData s)) s
    = (setError "Please enter a GitHub username" s, [], None).
Proof.
  intros Hreq Hu. unfold required_fields in Hreq. simpl in Hreq.
  repeat (apply andb_prop in Hreq as [? Hreq]).
  unfold generateCV, fetchGitHubData.
  repeat match goal with E : truthy _ = true |- _ => rewrite E; clear E end.
  by rewrite Hu.
Qed.

Lemma generateCV_username_required_witness :
  run network_up
    (generateCV (formData (handleChange
       {| target_name := "githubUsername"; target_value := "" |}
       example_state)))
    (handleChange {| target_name := "githubUsername"; target_value := "" |}
       example_state)
  = (setError "Please enter a GitHub username"
       (handleChange {| target_name := "githubUsername"; target_value := "" |}
          example_state), [], Returned ()) ∧
  advance
    (generateCV (formData (handleChange
       {| target_name := "githubUsername"; target_value := "" |}
       example_state)))
    (handleChange {| target_name := "githubUsername"; target_value := "" |}
       example_state)
  = (setError "Please enter a GitHub username"
       (handleChange {| target_name := "githubUsername"; target_value := "" |}
          example_state), [], None).
Proof.
  apply (generateCV_username_required
           (handleChange
              {| target_name := "githubUsername"; target_value := "" |}
              example_state) network_up).
  - reflexivity.
  - reflexivity.
Defined.

Lemma js_or_nonempty (a : option string) (b : string) :
  b ≠ "" → js_or a b ≠ "".
Proof.
  intros Hb. destruct a as [x|]; simpl; [|done].
  by destruct (String.eqb_spec x "").
Qed.

(** A form that fails a check: the attempt ends at once with a message. *)
Lemma generateCV_incomplete (fd : gmap string string) (s : State)
    (net : Network) :
  form_complete fd = false →
  ∃ m, m ≠ "" ∧
       run net (generateCV fd) s = (setError m s, [], Returned ()) ∧
       advance (generateCV fd) s = (setError m s, [], None).
Proof.
  unfold form_complete, required_fields, generateCV, fetchGitHubData. simpl.
  intros Hc.
  destruct (truthy (fd !! "name")); [|eexists; (split; [|by split]); done].
  destruct (truthy (fd !! "email")); [|eexists; (split; [|by split]); done].
  destruct (truthy (fd !! "education")); [|eexists; (split; [|by split]); done].
  destruct (truthy (fd !! "university")); [|eexists; (split; [|by split]); done].
  destruct (truthy (fd !! "githubUsername")); [done|eexists; (split; [|by split]); done].
Qed.

(** An attempt on its own, started from the form, ends with the preview
    shown exactly when the form passes the checks, the lookup succeeds and
    the generation call succeeds. *)
Theorem generateCV_preview_iff (s : State) (net : Network) :
  showCV s = false →
  showCV (final_state (run net (generateCV (formData s)) s)) = true
  ↔ form_complete (formData s) = true ∧
    lookup_failure (profile_result net) = None ∧
    generate_failure (generate_result net) = None.
Proof.
  intros Hs. destruct (form_complete (formData s)) eqn:Hc.
  - destruct (lookup_failure (profile_result net)) as [m|] eqn:Hm.
    + rewrite (run_generateCV_lookup_failed _ _ _ m) by done. simpl.
      rewrite Hs. split; [done|by intros (_ & ? & _)].
    + destruct (profile_result net) as [?|[[?|?]|[?|d]]] eqn:Hr; try done.
      pose proof (run_generateCV_lookup_succeeded _ s net d Hc Hr) as Hrun.
      simpl in Hrun. rewrite Hrun.
      destruct (generate_failure (generate_result net)); simpl;
        rewrite ?Hs; (split; [done|by intros (_ & _ & ?)]).
  - destruct (generateCV_incomplete _ s net Hc) as (m & _ & -> & _).
    simpl. rewrite Hs. split; [done|by intros (? & _)].
Qed.

(** An attempt on its own never changes [formData]; the loading flag is
    off after one that issued a request, and untouched otherwise. *)
Theorem generateCV_frame (s : State) (net : Network) :
  let r := run net (generateCV (formData s)) s in
  formData (final_state r) = formData s ∧
  (trace r = [] → isLoading (final_state r) = isLoading s) ∧
  (trace r ≠ [] → isLoading (final_state r) = false).
Proof.
  intros r. subst r. destruct (form_complete (formData s)) eqn:Hc.
  - destruct (lookup_failure (profile_result net)) as [m|] eqn:Hm.
    + by rewrite (run_generateCV_lookup_failed _ _ _ m).
    + destruct (profile_result net) as [?|[[?|?]|[?|d]]] eqn:Hr; try done.
      pose proof (run_generateCV_lookup_succeeded _ s net d Hc Hr) as Hrun.
      simpl in Hrun. rewrite Hrun.
      by destruct (generate_failure (generate_result net)).
  - by destruct (generateCV_incomplete _ s net Hc) as (m & _ & -> & _).
Qed.

(** After an attempt on its own that failed at either call, the page is
    the form, with the fields as they were, the loading indicator off, and
    the failure's message shown when it is not empty; it is never empty when
    the failing call was answered with a failure response whose body was
    parsed. *)
Theorem failed_attempt_rendered (s : State) (net : Network) (m : string) :
  form_complete (formData s) = true →
  showCV s = false →
  attempt_failure net = Some m →
  render (final_state (run net (generateCV (formData s)) s))
    = FormView (formData s) false (shown m) ∧
  (answered_with_error net = true → shown m = Some m).
Proof.
  intros Hc Hs Hm. unfold attempt_failure, answered_with_error in *.
  destruct (lookup_failure (profile_result net)) as [m'|] eqn:Hl.
  - injection Hm as ->.
    rewrite (run_generateCV_lookup_failed _ _ _ m) by done.
    unfold render. simpl. rewrite Hs. split; [done|].
    destruct (profile_result net) as [?|[[?|b]|[?|d]]]; try done.
    intros _. simpl in Hl. injection Hl as <-.
    unfold shown, truthy.
    match goal with
    | |- context [js_or ?a ?f] =>
        pose proof (js_or_nonempty a f ltac:(done)) as Hne;
        by destruct (String.eqb_spec (js_or a f) "")
    end.
  - destruct (profile_result net) as [?|[[?|?]|[?|d]]] eqn:Hr; try done.
    pose proof (run_generateCV_lookup_succeeded _ s net d Hc Hr) as Hrun.
    simpl in Hrun. rewrite Hrun, Hm.
    unfold render. simpl. rewrite Hs. split; [done|].
    destruct (generate_result net) as [?|[[?|b]|?]]; try done.
    intros _. simpl in Hm. injection Hm as <-.
    unfold shown, truthy.
    match goal with
    | |- context [js_or ?a ?f] =>
        pose proof (js_or_nonempty a f ltac:(done)) as Hne;
        by destruct (String.eqb_spec (js_or a f) "")
    end.
Qed.

(** ** The event loop, exactly *)

(** What clicking Generate on a form that passes the checks does at once. *)
Lemma advance_generateCV_exact (fd : gmap string string) (s : State) :
  form_complete fd = true →
  ∃ k,
    advance (generateCV fd) s
      = (setError "" (setIsLoading true s),
         [IssueProfile (template (fd !! "githubUsername"))],
         Some (WaitProfile k)) ∧
    lookup_cont_exact fd k.
Proof.
  intros [Hreq Hu]%form_complete_checks. unfold generateCV, fetchGitHubData.
  rewrite Hreq, Hu. simpl. eexists. split; [reflexivity|].
  intros r s0. destruct r as [m|[[m|b]|[m|d]]]; simpl; try reflexivity.
  eexists _, _. split; [reflexivity|]. split; [reflexivity|].
  intros r' s1. by destruct r' as [m|[[m|b]|body]].
Qed.

Lemma Exists_delete_other {A : Type} (P : A → Prop) (l : list A) (i : nat)
    (x : A) :
  l !! i = Some x → ¬ P x → Exists P l → Exists P (delete i l).
Proof.
  revert i. induction l as [|a l IH]; intros [|i] Hi Hx Hex;
    simpl in *; simplify_eq.
  - by apply Exists_cons in Hex as [?|?].
  - apply Exists_cons in Hex as [?|?].
    + by apply Exists_cons_hd.
    + apply Exists_cons_tl. by apply (IH i).
Qed.

Lemma Forall_delete_keep {A : Type} (P : A → Prop) (l : list A) (i : nat) :
  Forall P l → Forall P (delete i l).
Proof.
  intros Hl. apply Forall_forall. intros x Hx.
  eapply Forall_forall; [exact Hl|]. by eapply list_elem_of_delete_inv.
Qed.

Lemma form_keys_elem (n : string) : n ∈ form_fields → n ∈ form_keys.
Proof. intros Hn. by apply elem_of_list_to_set. Qed.

Lemma loop_invariant_init : loop_invariant initialConfig.
Proof.
  split; [constructor|]. split; [by_decide|]. split; [constructor|done].
Qed.

Lemma loop_invariant_step (c c' : Config) :
  loop_invariant c → step c c' → loop_invariant c'.
Proof.
  intros (Hpend & Hdom & Hhist & Hload) Hstep.
  destruct Hstep as [c e Hs Hn|c Hs|c Hs|c i k r Hi|c i k r Hi].
  - (* a field is edited *)
    split; [done|]. split; [|by split].
    simpl. rewrite dom_insert_L, Hdom.
    apply subseteq_union_1_L, singleton_subseteq_l. by apply form_keys_elem.
  - (* Generate is clicked *)
    unfold on_generate, resume.
    destruct (form_complete (formData (ui c))) eqn:Hc.
    + destruct (advance_generateCV_exact _ (ui c) Hc) as (k & -> & Hk).
      simpl. split; [|split; [done|split]].
      * apply Forall_app. split; [done|]. repeat constructor. by exists (formData (ui c)).
      * apply Forall_app. split; [done|]. repeat constructor. simpl.
        apply form_complete_checks in Hc as [_ Hu].
        by apply truthy_template in Hu as [_ ?].
      * intros _. apply Exists_app. right. by apply Exists_cons_hd.
    + destruct (generateCV_incomplete _ (ui c) network_up Hc)
        as (m & _ & _ & ->).
      simpl. rewrite !app_nil_r. by split.
  - (* Back is clicked *)
    by split.
  - (* a lookup settles *)
    unfold on_settle_profile, resume.
    assert (Hw : waiting_exact (WaitProfile k)).
    { eapply Forall_lookup_1 in Hpend; [|exact Hi]. exact Hpend. }
    destruct Hw as (fd & Hc & Hk). specialize (Hk r (ui c)).
    destruct (lookup_failure r) as [m|].
    + rewrite Hk. simpl. rewrite !app_nil_r.
      split; [by apply Forall_delete_keep|]. split; [done|].
      split; [|done]. apply Forall_app. split; [done|]. by repeat constructor.
    + destruct Hk as (data & k' & -> & -> & Hk'). simpl.
      split; [|split; [done|split; [|done]]].
      * apply Forall_app. split; [by apply Forall_delete_keep|].
        by repeat constructor.
      * apply Forall_app. split; [done|]. by repeat constructor.
  - (* a generation call settles *)
    unfold on_settle_generate, resume.
    assert (Hk : generate_cont_exact k).
    { eapply Forall_lookup_1 in Hpend; [|exact Hi]. exact Hpend. }
    rewrite (Hk r (ui c)). simpl. rewrite !app_nil_r.
    split; [by apply Forall_delete_keep|].
    split; [by destruct (generate_failure r)|].
    split.
    + apply Forall_app. split; [done|]. by repeat constructor.
    + intros Hl. eapply Exists_delete_other; [exact Hi|done|].
      apply Hload. by destruct (generate_failure r).
Qed.

Lemma reachable_loop_invariant (c : Config) : reachable c → loop_invariant c.
Proof.
  induction 1 as [|c c' _ IH Hstep]; [apply loop_invariant_init|].
  by apply (loop_invariant_step c).
Qed.

Lemma pending_config_reachable : reachable pending_config.
Proof.
  eapply reachable_step; [apply filled_config_reachable|].
  by apply step_generate.
Qed.

Lemma fetched_config_reachable : reachable fetched_config.
Proof. apply settle_first_reachable, pending_config_reachable. Qed.

(** What the click does to the state it finds: the lookup is issued for
    the form's username, and the page rendered from the new state is the
    form with the loading indicator on and no error message. *)
Theorem generateCV_pending (s : State) :
  form_complete (formData s) = true →
  showCV s = false →
  ∃ (s1 : State) (u : string) (k : FetchResult ProfileData → Proc unit),
    advance (generateCV (formData s)) s
      = (s1, [IssueProfile u], Some (WaitProfile k)) ∧
    formData s !! "githubUsername" = Some u ∧
    render s1 = FormView (formData s) true None.
Proof.
  intros Hc Hs.
  destruct (advance_generateCV_exact _ s Hc) as (k & Hk & _).
  apply form_complete_checks in Hc as [_ [Hu _]%truthy_template].
  eexists _, _, k. split; [exact Hk|]. split; [exact Hu|].
  unfold render. simpl. by rewrite Hs.
Qed.

(** X14: in every reachable configuration the form object has exactly the
    nine fields, each with a string: no input ever loses its value and no
    other property appears. *)
Theorem reachable_form_keys (c : Config) :
  reachable c →
  dom (formData (ui c)) = form_keys ∧
  ∀ n : string, n ∈ form_fields → is_Some (formData (ui c) !! n).
Proof.
  intros (_ & Hdom & _)%reachable_loop_invariant. split; [done|].
  intros n Hn. apply elem_of_dom. rewrite Hdom. by apply form_keys_elem.
Qed.

Lemma reachable_form_keys_witness :
  dom (formData (ui preview_config)) = form_keys ∧
  ∀ n : string, n ∈ form_fields → is_Some (formData (ui preview_config) !! n).
Proof.
  apply (reachable_form_keys preview_config preview_config_reachable).
Defined.

(** X15: the preview appears only when a generation call settles with a
    success response, and it disappears only by the Back button: these are
    the only steps that change [showCV]. *)
Theorem preview_transitions (c c' : Config) :
  reachable c →
  step c c' →
  (showCV (ui c) = false → showCV (ui c') = true →
   ∃ i k r,
     pending c !! i = Some (WaitGenerate k) ∧
     generate_failure r = None ∧
     c' = on_settle_generate i k r c ∧
     ui c' = setShowCV true (ui c)) ∧
  (showCV (ui c) = true → showCV (ui c') = false → c' = on_back c).
Proof.
  intros (Hpend & _)%reachable_loop_invariant Hstep.
  destruct Hstep as [c e Hs Hn|c Hs|c Hs|c i k r Hi|c i k r Hi].
  - simpl. split; intros H1 H2; congruence.
  - assert (showCV (ui (on_generate c)) = showCV (ui c)) as Heq.
    { unfold on_generate, resume.
      destruct (form_complete (formData (ui c))) eqn:Hc.
      - by destruct (advance_generateCV_exact _ (ui c) Hc) as (k & -> & _).
      - by destruct (generateCV_incomplete _ (ui c) network_up Hc)
          as (m & _ & _ & ->). }
    rewrite Heq. split; intros H1 H2; congruence.
  - split; [|done]. intros H1 H2. congruence.
  - assert (showCV (ui (on_settle_profile i k r c)) = showCV (ui c)) as Heq.
    { unfold on_settle_profile, resume.
      eapply Forall_lookup_1 in Hpend; [|exact Hi].
      destruct Hpend as (fd & _ & Hk). specialize (Hk r (ui c)).
      destruct (lookup_failure r) as [m|].
      - by rewrite Hk.
      - by destruct Hk as (data & k' & _ & -> & _). }
    rewrite Heq. split; intros H1 H2; congruence.
  - eapply Forall_lookup_1 in Hpend; [|exact Hi]. simpl in Hpend.
    assert (ui (on_settle_generate i k r c)
            = match generate_failure r with
              | Some m => setError m (ui c)
              | None => setShowCV true (ui c)
              end) as Heq.
    { unfold on_settle_generate, resume. by rewrite (Hpend r (ui c)). }
    rewrite Heq. destruct (generate_failure r) as [m|] eqn:Hr; simpl.
    + split; intros H1 H2; congruence.
    + split; [|intros _ H2; discriminate H2].
      intros _ _. exists i, k, r. by rewrite Hr.
Qed.

Lemma preview_transitions_witness :
  ∃ i k r,
    pending fetched_config !! i = Some (WaitGenerate k) ∧
    generate_failure r = None ∧
    preview_config = on_settle_generate i k r fetched_config ∧
    ui preview_config = setShowCV true (ui fetched_config).
Proof.
  assert (Hstep : step fetched_config preview_config).
  { change preview_config
      with (settle_first (profile_result network_up)
              (generate_result network_up) fetched_config).
    unfold settle_first.
    destruct (pending fetched_config) as [|[k|k] rest] eqn:Hp;
      [discriminate Hp| |]; constructor; by rewrite Hp. }
  destruct (preview_transitions fetched_config preview_config
              fetched_config_reachable Hstep) as [Hshow _].
  apply Hshow; reflexivity.
Defined.

(** X16: in every reachable history, also with attempts and edits
    interleaved, every lookup request carries a username that is not empty
    and every generation request carries a form that passed the checks of
    lines 77 and 41. *)
Theorem reachable_requests_validated (c : Config) (e : Event) :
  reachable c →
  e ∈ history c →
  match e with
  | IssueProfile u => u ≠ ""
  | IssueGenerate b =>
      form_complete (personalInfo b) = true ∧
      (∀ n, n ∈ required_fields → truthy (personalInfo b !! n) = true)
  | _ => True
  end.
Proof.
  intros (_ & _ & Hh & _)%reachable_loop_invariant He.
  rewrite Forall_forall in Hh. specialize (Hh e He).
  destruct e as [u|r|b|r]; try done.
  simpl in Hh. split; [done|]. intros n Hn.
  unfold form_complete in Hh. apply andb_prop in Hh as [Hreq _].
  rewrite forallb_forall in Hreq. apply Hreq. by apply list_elem_of_In.
Qed.

Lemma reachable_requests_validated_witness :
  form_complete example_form = true ∧
  (∀ n, n ∈ required_fields → truthy (example_form !! n) = true).
Proof.
  apply (reachable_requests_validated preview_config
           (IssueGenerate {| personalInfo := example_form;
                             payload_githubData := example_profile |})
           preview_config_reachable).
  vm_compute. do 2 right. left.
Defined.

(** X17: the loading indicator is on only while a lookup is pending: in
    every reachable configuration with [isLoading] true some lookup has not
    settled yet; with nothing pending the indicator is off. *)
Theorem reachable_loading_pending (c : Config) :
  reachable c →
  (isLoading (ui c) = true →
   Exists (λ w, is_lookup_wait w = true) (pending c)) ∧
  (pending c = [] → isLoading (ui c) = false).
Proof.
  intros (_ & _ & _ & Hl)%reachable_loop_invariant. split; [done|].
  intros Hp. destruct (isLoading (ui c)); [|done].
  specialize (Hl eq_refl). rewrite Hp in Hl. by apply Exists_nil in Hl.
Qed.

Lemma reachable_loading_pending_witness :
  (isLoading (ui pending_config) = true →
   Exists (λ w, is_lookup_wait w = true) (pending pending_config)) ∧
  (pending pending_config = [] → isLoading (ui pending_config) = false).
Proof.
  apply (reachable_loading_pending pending_config pending_config_reachable).
Defined.

(** X18: the generation request carries the form as it was when Generate
    was clicked: an edit made while the lookup is pending is not sent, yet
    it is kept in [formData] and is what the preview then shows. *)
Theorem edit_while_pending (c : Config) (e : ChangeEvent)
    (data : ProfileData) (body : JsonResult unit) :
  pending c = [] →
  form_complete (formData (ui c)) = true →
  let rp := Responded (Ok (JsonOk data)) in
  let rg := Responded (Ok body) in
  let sent := settle_first rp rg (on_change e (on_generate c)) in
  let previewed := settle_first rp rg sent in
  (∃ u,
     history sent
       = history c ++
         [IssueProfile u; SettleProfile rp;
          IssueGenerate {| personalInfo := formData (ui c);
                           payload_githubData := data |}]) ∧
  formData (ui sent) = <[target_name e := target_value e]> (formData (ui c)) ∧
  showCV (ui previewed) = true ∧
  formData (ui previewed) = <[target_name e := target_value e]> (formData (ui c)).
Proof.
  intros Hp Hc rp rg sent previewed.
  destruct (advance_generateCV_exact _ (ui c) Hc) as (k & Hadv & Hk).
  assert (Hsent : ∃ k',
    generate_cont_exact k' ∧
    sent = {| ui := store_fetched data
                      (handleChange e (setError "" (setIsLoading true (ui c))));
              pending := [WaitGenerate k'];
              history := history c ++
                [IssueProfile (template (formData (ui c) !! "githubUsername"));
                 SettleProfile rp;
                 IssueGenerate {| personalInfo := formData (ui c);
                                  payload_githubData := data |}] |}).
  { subst sent. unfold on_generate, resume. rewrite Hadv, Hp. simpl.
    unfold settle_first, on_settle_profile, resume. simpl.
    destruct (Hk rp (handleChange e (setError "" (setIsLoading true (ui c)))))
      as (d & k' & Hd & -> & Hk').
    injection Hd as <-. exists k'. split; [done|]. simpl.
    by rewrite <-app_assoc. }
  destruct Hsent as (k' & Hk' & Hsent).
  split; [rewrite Hsent; eauto|]. split; [by rewrite Hsent|].
  subst previewed. rewrite Hsent.
  unfold settle_first, on_settle_generate, resume. simpl.
  rewrite (Hk' rg). simpl. done.
Qed.

Lemma edit_while_pending_witness :
  let e := {| target_name := "name"; target_value := "Grace" |} in
  let rp := Responded (Ok (JsonOk example_profile)) in
  let rg := Responded (Ok (JsonOk ())) in
  let sent := settle_first rp rg (on_change e (on_generate filled_config)) in
  let previewed := settle_first rp rg sent in
  (∃ u,
     history sent
       = history filled_config ++
         [IssueProfile u; SettleProfile rp;
          IssueGenerate {| personalInfo := formData (ui filled_config);
                           payload_githubData := example_profile |}]) ∧
  formData (ui sent) = <["name" := "Grace"]> (formData (ui filled_config)) ∧
  showCV (ui previewed) = true ∧
  formData (ui previewed) = <["name" := "Grace"]> (formData (ui filled_config)).
Proof.
  apply (edit_while_pending filled_config
           {| target_name := "name"; target_value := "Grace" |}
           example_profile (JsonOk ())); reflexivity.
Defined.

(** X19: in every reachable configuration in which the preview is shown,
    the rendered document is built from the latest successful lookup: its
    statistics are present and are that lookup's [user_data], its projects
    are that lookup's [top_repos] in order, and its languages line is the
    top-5 sequence of that lookup's [languages]. *)
Theorem reachable_preview_document (c : Config) :
  reachable c →
  showCV (ui c) = true →
  ∃ (data : ProfileData) (doc : Document),
    last_fetched (history c) = Some data ∧
    render (ui c) = PreviewView doc ∧
    doc_stats doc = Some (user_data data) ∧
    doc_projects doc = top_repos data ∧
    doc_languages doc = join ", " (getTopLanguages (languages_of data)).
Proof.
  intros (Hdata & Hshow & _)%reachable_invariant Hs.
  destruct (Hshow Hs) as [data Hd].
  destruct (Hdata data Hd) as (Hg & Ht & Hl).
  exists data. eexists. split; [done|].
  unfold render. rewrite Hs. simpl. split; [reflexivity|]. simpl.
  by rewrite Hg, Ht, Hl.
Qed.

Lemma reachable_preview_document_witness :
  ∃ (data : ProfileData) (doc : Document),
    last_fetched (history preview_config) = Some data ∧
    render (ui preview_config) = PreviewView doc ∧
    doc_stats doc = Some (user_data data) ∧
    doc_projects doc = top_repos data ∧
    doc_languages doc = join ", " (getTopLanguages (languages_of data)).
Proof.
  apply (reachable_preview_document preview_config preview_config_reachable).
  reflexivity.
Defined.

(** A successful attempt on its own leaves no error message and no loading
    flag behind; repeating it after [setShowCV false] with the same answers
    gives the same state again. *)
Theorem generateCV_success_again (s : State) (net : Network)
    (data : ProfileData) (body : JsonResult unit) :
  form_complete (formData s) = true →
  profile_result net = Responded (Ok (JsonOk data)) →
  generate_result net = Responded (Ok body) →
  let s1 := final_state (run net (generateCV (formData s)) s) in
  error s1 = "" ∧ isLoading s1 = false ∧
  render (setShowCV false s1) = FormView (formData s) false None ∧
  final_state (run net (generateCV (formData s1)) (setShowCV false s1)) = s1.
Proof.
  intros Hc Hr Hg s1.
  assert (Hs1 : s1 = setShowCV true
                       (store_fetched data (setError "" (setIsLoading true s)))).
  { subst s1. rewrite (run_generateCV_lookup_succeeded _ _ _ data) by done.
    by rewrite Hg. }
  rewrite Hs1. split; [done|]. split; [done|]. split; [done|].
  simpl.
  rewrite (run_generateCV_lookup_succeeded _ _ _ data) by done.
  by rewrite Hg.
Qed.

(** X21: the sort step is determined by what it must achieve: any
    arrangement of the entries that is in descending weight and keeps the
    entries of each weight in their enumeration order is the one the sort
    of line 117 returns. *)
Theorem sort_step_determined (o : LanguageFrequency)
    (sorted : list (string * Z)) :
  StronglySorted descending sorted →
  (∀ w : Z,
     filter (λ e, e.2 = w) sorted = filter (λ e, e.2 = w) (Object_entries o)) →
  sorted = Array_sort compareFn (Object_entries o).
Proof. intros Hs Hf. by apply Array_sort_determined. Qed.

Lemma sort_step_determined_witness :
  [("JS", 30); ("Rust", 30); ("Python", 10); ("Go", 5); ("Java", 2); ("C", 1)]
  = Array_sort compareFn (Object_entries example_languages).
Proof.
  apply (sort_step_determined example_languages).
  - unfold descending. repeat (constructor; [|repeat constructor; simpl; lia]).
    constructor.
  - intros w. unfold Object_entries, example_languages.
    rewrite !filter_cons, !filter_nil. simpl.
    destruct (decide (30 = w)), (decide (10 = w)), (decide (5 = w)),
      (decide (2 = w)), (decide (1 = w)); first [lia | done].
Defined.

(** X22: on an idle page (nothing pending) the event loop does what one
    attempt on its own does: clicking Generate and letting its requests
    settle ends in the final state of the attempt, adds exactly its network
    events to the history, in order, and leaves nothing pending. *)
Theorem attempt_in_event_loop (net : Network) (c : Config) :
  pending c = [] →
  let c' :=
    settle_first (profile_result net) (generate_result net)
      (settle_first (profile_result net) (generate_result net)
         (on_generate c)) in
  ui c' = final_state (run net (generateCV (formData (ui c))) (ui c)) ∧
  history c'
    = history c ++ trace (run net (generateCV (formData (ui c))) (ui c)) ∧
  pending c' = [].
Proof. intros Hp. by apply run_is_event_loop. Qed.

Lemma attempt_in_event_loop_witness :
  ui preview_config
    = final_state
        (run network_up (generateCV (formData (ui filled_config)))
           (ui filled_config)) ∧
  history preview_config
    = history filled_config ++
      trace (run network_up (generateCV (formData (ui filled_config)))
               (ui filled_config)) ∧
  pending preview_config = [].
Proof.
  apply (attempt_in_event_loop network_up filled_config). reflexivity.
Defined.

(** * Attempts in the event loop *)

Lemma attempt_alone_run (net : Network) (c : Config) :
  pending c = [] →
  ui (attempt_alone net c)
    = final_state (run net (generateCV (formData (ui c))) (ui c)) ∧
  history (attempt_alone net c)
    = history c ++ trace (run net (generateCV (formData (ui c))) (ui c)) ∧
  pending (attempt_alone net c) = [].
Proof. intros Hp. by apply run_is_event_loop. Qed.

Lemma reachable_idle_not_loading (c : Config) :
  reachable c → pending c = [] → isLoading (ui c) = false.
Proof.
  intros (_ & _ & _ & Hl)%reachable_loop_invariant Hp.
  destruct (isLoading (ui c)); [|done].
  specialize (Hl eq_refl). rewrite Hp in Hl. by apply Exists_nil in Hl.
Qed.

(** What the settlement of a lookup does to a reachable configuration. *)
Lemma settle_profile_exact (c : Config) (i : nat)
    (k : FetchResult ProfileData → Proc unit) (r : FetchResult ProfileData) :
  reachable c →
  pending c !! i = Some (WaitProfile k) →
  match lookup_failure r with
  | Some m =>
      on_settle_profile i k r c
        = {| ui := setIsLoading false (setError m (ui c));
             pending := delete i (pending c);
             history := history c ++ [SettleProfile r] |}
  | None =>
      ∃ fd data k',
        r = Responded (Ok (JsonOk data)) ∧ generate_cont_exact k' ∧
        on_settle_profile i k r c
          = {| ui := store_fetched data (ui c);
               pending := delete i (pending c) ++ [WaitGenerate k'];
               history := history c ++
                 [SettleProfile r;
                  IssueGenerate
                    {| personalInfo := fd; payload_githubData := data |}] |}
  end.
Proof.
  intros (Hpend & _)%reachable_loop_invariant Hi.
  eapply Forall_lookup_1 in Hpend; [|exact Hi].
  destruct Hpend as (fd & _ & Hk). specialize (Hk r (ui c)).
  unfold on_settle_profile, resume.
  destruct (lookup_failure r) as [m|].
  - rewrite Hk. simpl. by rewrite !app_nil_r.
  - destruct Hk as (data & k' & -> & -> & Hk'). simpl.
    exists fd, data, k'. by split.
Qed.

(** What the settlement of a generation call does to a reachable
    configuration. *)
Lemma settle_generate_exact (c : Config) (i : nat)
    (k : FetchResult unit → Proc unit) (r : FetchResult unit) :
  reachable c →
  pending c !! i = Some (WaitGenerate k) →
  on_settle_generate i k r c
    = {| ui := match generate_failure r with
               | Some m => setError m (ui c)
               | None => setShowCV true (ui c)
               end;
         pending := delete i (pending c);
         history := history c ++ [SettleGenerate r] |} ∧
  ∃ data, last_fetched (history c) = Some data ∧ holds_fetched (ui c) data.
Proof.
  intros Hreach Hi.
  pose proof (reachable_loop_invariant c Hreach) as (Hpend & _).
  pose proof (reachable_invariant c Hreach) as (Hdata & _ & Hwait & _).
  eapply Forall_lookup_1 in Hpend; [|exact Hi]. simpl in Hpend.
  eapply Forall_lookup_1 in Hwait; [|exact Hi].
  destruct Hwait as [_ [data Hd]]. split.
  - unfold on_settle_generate, resume. rewrite (Hpend r (ui c)). simpl.
    by rewrite !app_nil_r.
  - exists data. split; [done|]. by apply Hdata.
Qed.

(** C2, as the code has it, in every reachable configuration, with
    attempts, edits and settlements interleaved in any order.  When a
    pending lookup settles with a failure, that step stores the failure's
    message in [error], turns [isLoading] off, changes no other hook and
    issues no request.  When a pending generation call settles with a
    failure, that step stores the message in [error] and changes no other
    hook: [githubData], [topProjects] and [languages] are not restored,
    they hold what the latest successful lookup returned.  A failure never
    changes [showCV].  When an attempt starts from the form with nothing
    pending and its requests settle before any other event, it ends on the
    form, and the end state differs from the start state in [error] only
    after a failed lookup, and in [error] and the three fetched hooks, which
    hold what its lookup returned, after a failed generation call. *)
Theorem failed_attempt_state (c : Config) :
  reachable c →
  (∀ i k r m,
     pending c !! i = Some (WaitProfile k) →
     lookup_failure r = Some m →
     let c' := on_settle_profile i k r c in
     error (ui c') = m ∧ isLoading (ui c') = false ∧
     unchanged_but_error_loading (ui c) (ui c') ∧
     history c' = history c ++ [SettleProfile r] ∧
     pending c' = delete i (pending c)) ∧
  (∀ i k r m,
     pending c !! i = Some (WaitGenerate k) →
     generate_failure r = Some m →
     let c' := on_settle_generate i k r c in
     error (ui c') = m ∧ unchanged_but_error (ui c) (ui c') ∧
     history c' = history c ++ [SettleGenerate r] ∧
     pending c' = delete i (pending c) ∧
     ∃ data, last_fetched (history c) = Some data ∧
             holds_fetched (ui c') data) ∧
  (∀ net,
     pending c = [] →
     showCV (ui c) = false →
     form_complete (formData (ui c)) = true →
     let c' := attempt_alone net c in
     (∀ m, lookup_failure (profile_result net) = Some m →
           showCV (ui c') = false ∧ error (ui c') = m ∧
           unchanged_but_error (ui c) (ui c')) ∧
     (∀ data m,
        profile_result net = Responded (Ok (JsonOk data)) →
        generate_failure (generate_result net) = Some m →
        showCV (ui c') = false ∧ error (ui c') = m ∧
        holds_fetched (ui c') data ∧
        formData (ui c') = formData (ui c) ∧
        isLoading (ui c') = isLoading (ui c))).
Proof.
  intros Hreach. split; [|split].
  - intros i k r m Hi Hm c'. subst c'.
    pose proof (settle_profile_exact c i k r Hreach Hi) as Hs.
    rewrite Hm in Hs. by rewrite Hs.
  - intros i k r m Hi Hm c'. subst c'.
    destruct (settle_generate_exact c i k r Hreach Hi) as (Hs & data & Hd & Hf).
    rewrite Hm in Hs. rewrite Hs. simpl.
    split; [done|]. split; [done|]. split; [done|]. split; [done|].
    by exists data.
  - intros net Hp Hshow Hc c'. subst c'.
    destruct (attempt_alone_run net c Hp) as (-> & _ & _).
    pose proof (reachable_idle_not_loading c Hreach Hp) as Hl.
    destruct (generateCV_failure (ui c) net Hc Hl) as [Hlook Hgen]. split.
    + intros m Hm. destruct (Hlook m Hm) as (He & Hu).
      split; [|by split]. destruct Hu as (_ & _ & _ & _ & _ & ->). done.
    + intros data m Hr Hm.
      destruct (Hgen data m Hr Hm) as (He & Hf & Hfd & Hil & Hs).
      by rewrite Hs.
Qed.

Lemma failed_attempt_state_witness :
  showCV (ui (attempt_alone generation_refused filled_config)) = false ∧
  error (ui (attempt_alone generation_refused filled_config))
    = "No data provided" ∧
  holds_fetched (ui (attempt_alone generation_refused filled_config))
    example_profile.
Proof.
  destruct (failed_attempt_state filled_config filled_config_reachable)
    as (_ & _ & Halone).
  destruct (Halone generation_refused eq_refl eq_refl eq_refl) as [_ Hgen].
  destruct (Hgen example_profile "No data provided" eq_refl eq_refl)
    as (Hs & He & Hf & _).
  split; [exact Hs|]. split; [exact He|exact Hf].
Defined.

Lemma edited_preview_config_reachable : reachable edited_preview_config.
Proof.
  unfold edited_preview_config. do 2 apply settle_first_reachable.
  eapply reachable_step; [apply pending_config_reachable|].
  apply step_change; [reflexivity|by_decide].
Qed.

(** C8 as stated fails when a field is edited while the requests are
    pending: both calls of the attempt succeed and the preview is shown,
    but its heading is the edited name, not the name that was submitted
    in the request. *)
Lemma edited_preview_counterexample :
  reachable edited_preview_config ∧
  history edited_preview_config
    = [IssueProfile "ada";
       SettleProfile (profile_result network_up);
       IssueGenerate {| personalInfo := example_form;
                        payload_githubData := example_profile |};
       SettleGenerate (generate_result network_up)] ∧
  example_form !! "name" = Some "Ada" ∧
  showCV (ui edited_preview_config) = true ∧
  ∃ doc : Document,
    render (ui edited_preview_config) = PreviewView doc ∧
    doc_heading doc = "Grace" ∧
    doc_heading doc ≠ "Ada".
Proof.
  split; [apply edited_preview_config_reachable|].
  split; [by vm_compute|]. split; [reflexivity|]. split; [reflexivity|].
  eexists. split; [reflexivity|]. split; [reflexivity|].
  vm_compute. discriminate.
Qed.

(** C8, as the code has it.  In every reachable configuration, when a
    pending generation call (there is one only after the lookup of its
    attempt succeeded) settles with a success response, that step sets
    [showCV] to true and changes nothing else, and the page rendered after
    it is the preview: its heading is the name and its contact line starts
    with the email that [formData] holds at that moment, and its languages
    line is the top-5 sequence of the mapping the latest successful lookup
    returned.  When the attempt starts with nothing pending and its
    requests settle before any other event, these are the submitted name
    and email, the ones in the body of the generation request, and the
    mapping is the one its own lookup fetched. *)
Theorem successful_attempt_preview (c : Config) :
  reachable c →
  (∀ i k r,
     pending c !! i = Some (WaitGenerate k) →
     generate_failure r = None →
     let c' := on_settle_generate i k r c in
     ui c' = setShowCV true (ui c) ∧
     ∃ (data : ProfileData) (doc : Document),
       last_fetched (history c) = Some data ∧
       render (ui c') = PreviewView doc ∧
       doc_heading doc = text (formData (ui c) !! "name") ∧
       head (doc_contact doc) = Some (text (formData (ui c) !! "email")) ∧
       doc_languages doc = join ", " (getTopLanguages (languages_of data))) ∧
  (∀ net data body name email,
     pending c = [] →
     form_complete (formData (ui c)) = true →
     formData (ui c) !! "name" = Some name →
     formData (ui c) !! "email" = Some email →
     profile_result net = Responded (Ok (JsonOk data)) →
     generate_result net = Responded (Ok body) →
     let c' := attempt_alone net c in
     showCV (ui c') = true ∧
     holds_fetched (ui c') data ∧
     (∃ u b,
        history c'
          = history c ++
            [IssueProfile u; SettleProfile (profile_result net);
             IssueGenerate b; SettleGenerate (generate_result net)] ∧
        personalInfo b !! "name" = Some name ∧
        personalInfo b !! "email" = Some email ∧
        payload_githubData b = data) ∧
     ∃ doc : Document,
       render (ui c') = PreviewView doc ∧
       doc_heading doc = name ∧
       head (doc_contact doc) = Some email ∧
       doc_languages doc = join ", " (getTopLanguages (languages_of data))).
Proof.
  intros Hreach. split.
  - intros i k r Hi Hr c'. subst c'.
    destruct (settle_generate_exact c i k r Hreach Hi)
      as (Hs & data & Hd & Hg & Ht & Hl).
    rewrite Hr in Hs. rewrite Hs. simpl. split; [done|].
    exists data. eexists. split; [done|]. split; [reflexivity|].
    simpl. by rewrite Hl.
  - intros net data body name email Hp Hc Hn He Hr Hg c'. subst c'.
    destruct (attempt_alone_run net c Hp) as (-> & -> & _).
    destruct (generateCV_success (ui c) net data body name email
                Hc Hn He Hr Hg) as (Hs & Hf & Hdoc).
    split; [exact Hs|]. split; [exact Hf|]. split; [|exact Hdoc].
    pose proof (run_generateCV_lookup_succeeded _ (ui c) net data Hc Hr)
      as Hrun.
    simpl in Hrun. rewrite Hrun. eexists _, _. split; [reflexivity|].
    by simpl.
Qed.

Lemma successful_attempt_preview_witness :
  showCV (ui (attempt_alone network_up filled_config)) = true ∧
  ∃ doc : Document,
    render (ui (attempt_alone network_up filled_config)) = PreviewView doc ∧
    doc_heading doc = "Ada" ∧
    head (doc_contact doc) = Some "ada@example.org" ∧
    doc_languages doc = "JS, Rust, Python, Go, Java".
Proof.
  destruct (successful_attempt_preview filled_config filled_config_reachable)
    as [_ Halone].
  destruct (Halone network_up example_profile (JsonOk ()) "Ada"
              "ada@example.org" eq_refl eq_refl eq_refl eq_refl eq_refl
              eq_refl)
    as (Hs & _ & _ & doc & Hr & Hh & Hc & Hl).
  split; [exact Hs|]. exists doc. repeat split; assumption.
Defined.

(** X10: on a page that shows the form with nothing pending, when Generate
    is clicked and the requests of that attempt settle before any other
    event, the page ends on the preview exactly when the form passes the
    checks, the lookup succeeds and the generation call succeeds. *)
Theorem idle_preview_iff (net : Network) (c : Config) :
  pending c = [] →
  showCV (ui c) = false →
  showCV (ui (attempt_alone net c)) = true
  ↔ form_complete (formData (ui c)) = true ∧
    lookup_failure (profile_result net) = None ∧
    generate_failure (generate_result net) = None.
Proof.
  intros Hp Hs. destruct (attempt_alone_run net c Hp) as (-> & _ & _).
  by apply generateCV_preview_iff.
Qed.

Lemma idle_preview_iff_witness :
  showCV (ui (attempt_alone network_up filled_config)) = true
  ↔ form_complete (formData (ui filled_config)) = true ∧
    lookup_failure (profile_result network_up) = None ∧
    generate_failure (generate_result network_up) = None.
Proof.
  apply (idle_preview_iff network_up filled_config); reflexivity.
Defined.

(** X11: only a field edit writes the form: every other step of the page
    from a reachable configuration (a click on Generate, Back, the
    settlement of a lookup or of a generation call, with any result and in
    any interleaving) leaves [formData] as it was. *)
Theorem only_edits_change_form (c c' : Config) :
  reachable c →
  step c c' →
  formData (ui c') = formData (ui c) ∨
  ∃ e : ChangeEvent, target_name e ∈ form_fields ∧ c' = on_change e c.
Proof.
  intros Hreach Hstep.
  pose proof (reachable_loop_invariant c Hreach) as (Hpend & _).
  destruct Hstep as [c e Hs Hn|c Hs|c Hs|c i k r Hi|c i k r Hi].
  - right. by exists e.
  - left. unfold on_generate, resume.
    destruct (form_complete (formData (ui c))) eqn:Hc.
    + by destruct (advance_generateCV_exact _ (ui c) Hc) as (k & -> & _).
    + by destruct (generateCV_incomplete _ (ui c) network_up Hc)
        as (m & _ & _ & ->).
  - by left.
  - left. pose proof (settle_profile_exact c i k r Hreach Hi) as Hs.
    destruct (lookup_failure r) as [m|].
    + by rewrite Hs.
    + destruct Hs as (fd & data & k' & _ & _ & ->). done.
  - left. destruct (settle_generate_exact c i k r Hreach Hi) as (-> & _).
    by destruct (generate_failure r).
Qed.

Lemma only_edits_change_form_witness :
  formData (ui pending_config) = formData (ui filled_config) ∨
  ∃ e : ChangeEvent,
    target_name e ∈ form_fields ∧ pending_config = on_change e filled_config.
Proof.
  apply (only_edits_change_form filled_config pending_config
           filled_config_reachable).
  by apply step_generate.
Defined.

(** X12: on a page that shows the form with nothing pending, when Generate
    is clicked on a form that passes the checks and the requests of that
    attempt settle before any other event, a failure at either call leaves
    the page as the form, with the fields as they were, the loading
    indicator off, and the failure's message shown when it is not empty;
    it is never empty when the failing call was answered with a failure
    response whose body was parsed. *)
Theorem idle_failed_attempt_rendered (net : Network) (c : Config)
    (m : string) :
  pending c = [] →
  showCV (ui c) = false →
  form_complete (formData (ui c)) = true →
  attempt_failure net = Some m →
  render (ui (attempt_alone net c))
    = FormView (formData (ui c)) false (shown m) ∧
  (answered_with_error net = true → shown m = Some m).
Proof.
  intros Hp Hs Hc Hm. destruct (attempt_alone_run net c Hp) as (-> & _ & _).
  by apply failed_attempt_rendered.
Qed.

Lemma idle_failed_attempt_rendered_witness :
  render (ui (attempt_alone generation_refused filled_config))
    = FormView (formData (ui filled_config)) false (Some "No data provided").
Proof.
  destruct (idle_failed_attempt_rendered generation_refused filled_config
              "No data provided" eq_refl eq_refl eq_refl eq_refl) as [Hr _].
  exact Hr.
Defined.

(** X13: in any configuration that shows the form, pending requests or
    not, a click on Generate with a form that passes the checks issues the
    lookup for the form's username, adds it to the pending requests, and
    the page rendered right after the click is the form with the loading
    indicator on and no error message, whatever message was shown before.
    (This is the state the click leaves; a later event can change it while
    the lookup is still pending.) *)
Theorem click_shows_loading (c : Config) :
  showCV (ui c) = false →
  form_complete (formData (ui c)) = true →
  ∃ (u : string) (k : FetchResult ProfileData → Proc unit),
    formData (ui c) !! "githubUsername" = Some u ∧
    history (on_generate c) = history c ++ [IssueProfile u] ∧
    pending (on_generate c) = pending c ++ [WaitProfile k] ∧
    render (ui (on_generate c)) = FormView (formData (ui c)) true None.
Proof.
  intros Hs Hc.
  destruct (advance_generateCV_exact _ (ui c) Hc) as (k & Hk & _).
  apply form_complete_checks in Hc as [_ [Hu _]%truthy_template].
  eexists _, k. split; [exact Hu|].
  unfold on_generate, resume. rewrite Hk. simpl.
  split; [done|]. split; [done|]. unfold render. simpl. by rewrite Hs.
Qed.

Lemma click_shows_loading_witness :
  ∃ (u : string) (k : FetchResult ProfileData → Proc unit),
    formData (ui filled_config) !! "githubUsername" = Some u ∧
    history pending_config = history filled_config ++ [IssueProfile u] ∧
    pending pending_config = pending filled_config ++ [WaitProfile k] ∧
    render (ui pending_config) = FormView (formData (ui filled_config)) true None.
Proof.
  apply (click_shows_loading filled_config); reflexivity.
Defined.

(** X20: when an attempt starts with nothing pending and its requests
    settle before any other event, and both calls succeed, it leaves no
    error message and no loading flag behind, so the form rendered after
    Back is clean; and repeating such an attempt from there with the same
    answers ends in the same state again. *)
Theorem idle_success_again (net : Network) (c : Config)
    (data : ProfileData) (body : JsonResult unit) :
  pending c = [] →
  form_complete (formData (ui c)) = true →
  profile_result net = Responded (Ok (JsonOk data)) →
  generate_result net = Responded (Ok body) →
  let c1 := attempt_alone net c in
  error (ui c1) = "" ∧ isLoading (ui c1) = false ∧ pending c1 = [] ∧
  render (ui (on_back c1)) = FormView (formData (ui c)) false None ∧
  ui (attempt_alone net (on_back c1)) = ui c1.
Proof.
  intros Hp Hc Hr Hg c1.
  destruct (attempt_alone_run net c Hp) as (Hui & _ & Hp1).
  destruct (generateCV_success_again (ui c) net data body Hc Hr Hg)
    as (He & Hl & Hrender & Hagain).
  subst c1. split; [by rewrite Hui|]. split; [by rewrite Hui|].
  split; [done|]. split; [simpl; by rewrite Hui|].
  destruct (attempt_alone_run net (on_back (attempt_alone net c)) Hp1)
    as (-> & _ & _).
  simpl. rewrite Hui. exact Hagain.
Qed.

Lemma idle_success_again_witness :
  let c1 := attempt_alone network_up filled_config in
  error (ui c1) = "" ∧ isLoading (ui c1) = false ∧ pending c1 = [] ∧
  render (ui (on_back c1)) = FormView (formData (ui filled_config)) false None ∧
  ui (attempt_alone network_up (on_back c1)) = ui c1.
Proof.
  apply (idle_success_again network_up filled_config example_profile
           (JsonOk ())); reflexivity.
Defined.
